(** * Session-token authentication of the Express API backend

    A shallow embedding of the controllers, the two gates and the route
    table of the repository:

    - [controllers/auth.ts]   : [register], [login]
    - [controllers/users.ts]  : [getAllUsers], [deleteUser], [updateUser]
    - [middleware/index.ts]   : [isAuthenticated], [isOwnAccount]
    - [router/*.ts]           : [route]

    The [User] table of the Prisma schema is a finite map from the primary
    key [id] to the remaining columns.  Every handler body runs in a small
    state-and-exception monad over a [World]: the table, the supply of
    generated ids, the entropy consumed by [bcrypt.hash], a log of the
    storage calls that were issued, and an oracle telling which storage call
    fails.  A JavaScript exception escaping the body of a [try] is caught by
    the handler and answered with status 400, as in the source. *)

From stdpp Require Import base numbers option list strings gmap fin_maps.

Open Scope string_scope.

(** ** JavaScript values that reach the handlers *)

(** A field of the JSON body or a route parameter is either [undefined]
    ([None]) or a string.  Truthiness as [!x] tests it: [undefined] and the
    empty string are falsy. *)
Definition truthy (v : option string) : bool :=
  match v with
  | None => false
  | Some s => negb (bool_decide (s = ""))
  end.

(** A value of [req.cookies].  The cookie parser that [index.ts] installs
    leaves a cookie as the string it was sent as, unless it is a [j:]
    cookie holding JSON: then the value is what the JSON parses to, an
    object, an array, a number or a boolean as well as a string.  Of a
    number only whether it is zero matters here; an integer stands for
    it. *)
#[local] Unset Elimination Schemes.
Inductive Js :=
| JsNull
| JsBool (b : bool)
| JsNumber (n : Z)
| JsString (s : string)
| JsArray (items : list Js)
| JsObject (fields : list (string * Js)).
#[local] Set Elimination Schemes.

(** Truthiness of such a value: [undefined], [null], [false], [0] and the
    empty string are falsy; every object and array is truthy. *)
Definition js_truthy (v : option Js) : bool :=
  match v with
  | None => false
  | Some JsNull => false
  | Some (JsBool b) => b
  | Some (JsNumber n) => negb (bool_decide (n = 0%Z))
  | Some (JsString s) => negb (bool_decide (s = ""))
  | Some (JsArray _) => true
  | Some (JsObject _) => true
  end.

(** ** Data model: the Prisma [User] model *)

(** The model of [schema.prisma]: [id] is the primary key with default
    [cuid()], [email] is [@unique], [salt] and [sessionToken] are optional
    ([None] is SQL null). *)

Module User.
(** A record as the Prisma client returns it. *)
Record t := mk {
  id : string;
  username : string;
  email : string;
  password : string;
  salt : option string;
  sessionToken : option string
}.

(** The columns other than the primary key, as stored in the table. *)
Record row := mkRow {
  r_username : string;
  r_email : string;
  r_password : string;
  r_salt : option string;
  r_sessionToken : option string
}.

Definition of_row (k : string) (r : row) : t :=
  mk k (r_username r) (r_email r) (r_password r) (r_salt r) (r_sessionToken r).

Definition to_row (u : t) : row :=
  mkRow (username u) (email u) (password u) (salt u) (sessionToken u).

(** [data: { sessionToken }] and [data: { username }] of [update]. *)
Definition set_sessionToken (tok : string) (r : row) : row :=
  mkRow (r_username r) (r_email r) (r_password r) (r_salt r) (Some tok).

(** An [undefined] value in [data] leaves the column as it is. *)
Definition set_username (n : option string) (r : row) : row :=
  match n with
  | None => r
  | Some n => mkRow n (r_email r) (r_password r) (r_salt r) (r_sessionToken r)
  end.

(** The result of [select: { id, email, username, sessionToken }]. *)
Record selected := mkSelected {
  s_id : string;
  s_email : string;
  s_username : string;
  s_sessionToken : option string
}.

Definition select (u : t) : selected :=
  mkSelected (id u) (email u) (username u) (sessionToken u).
End User.

(** ** The world a request runs in *)

(** Storage calls, as they are logged. *)
Inductive DbOp :=
| OpFindUniqueEmail (e : string)
| OpFindUniqueId (i : string)
| OpFindFirstToken (tok : option string)
| OpFindFirstWhere (filter : Js)
| OpFindMany
| OpCreate (e : string)
| OpUpdate (i : string)
| OpDelete (i : string).

Record World := mkWorld {
  users : gmap string User.row;   (* the User table, keyed by id *)
  ids : nat;                      (* ids generated so far *)
  entropy : nat;                  (* salts drawn so far by bcrypt.hash *)
  log : list DbOp;                (* storage calls issued, latest first *)
  outage : nat -> bool            (* does the n-th storage call fail? *)
}.

Definition set_users (m : gmap string User.row) (w : World) : World :=
  mkWorld m (ids w) (entropy w) (log w) (outage w).

Definition set_ids (n : nat) (w : World) : World :=
  mkWorld (users w) n (entropy w) (log w) (outage w).

Definition set_entropy (n : nat) (w : World) : World :=
  mkWorld (users w) (ids w) n (log w) (outage w).

Definition record_op (op : DbOp) (w : World) : World :=
  mkWorld (users w) (ids w) (entropy w) (op :: log w) (outage w).

(** ** The monad of handler bodies *)

Inductive Outcome (A : Type) :=
| Ok (a : A)
| Throw.
Arguments Ok {A} a.
Arguments Throw {A}.

Definition M (A : Type) : Type := World -> Outcome A * World.

Definition ret {A} (a : A) : M A := fun w => (Ok a, w).

Definition throw {A} : M A := fun w => (Throw, w).

Definition bind {A B} (m : M A) (k : A -> M B) : M B := fun w =>
  match m w with
  | (Ok a, w1) => k a w1
  | (Throw, w1) => (Throw, w1)
  end.

Notation "'await' x <- m ;; k" := (bind m (fun x => k))
  (at level 10, x name, m at level 99, k at level 200).

(** [try { body } catch (err) { console.log(err); handler }]. *)
Definition try_catch {A} (body : M A) (handler : A) : World -> A * World := fun w =>
  match body w with
  | (Ok a, w1) => (a, w1)
  | (Throw, w1) => (handler, w1)
  end.

(** ** Collaborators *)

(** The bcrypt primitive.  [bcrypt_hash n data rounds] is the digest of
    [data] under the salt generated from the [n]-th draw of entropy;
    [bcrypt_compare data digest] is the verification. *)
Class Bcrypt := {
  bcrypt_hash : nat -> string -> nat -> string;
  bcrypt_compare : string -> string -> bool
}.

(** The generator behind [@default(cuid())]. *)
Class IdGen := {
  cuid : nat -> string
}.

(** What the Prisma client makes of an object given in [where] as the
    value of a nullable string column: a condition on the column, or
    nothing when it rejects the object. *)
Class StringFilter := {
  string_filter : list (string * Js) -> option (option string -> bool)
}.

(** [bcrypt.hash(data, rounds)] draws a fresh salt; it rejects [undefined]. *)
Definition hash `{Bcrypt} (data : option string) (rounds : nat) : M string := fun w =>
  match data with
  | None => (Throw, w)
  | Some d => (Ok (bcrypt_hash (entropy w) d rounds), set_entropy (S (entropy w)) w)
  end.

(** [bcrypt.compare(data, digest)]; it rejects [undefined]. *)
Definition compare `{Bcrypt} (data : option string) (digest : string) : M bool :=
  match data with
  | None => throw
  | Some d => ret (bcrypt_compare d digest)
  end.

(** ** The Prisma client on the [User] model *)

Module db.
(** All records, in the order of the table. *)
Definition all (m : gmap string User.row) : list User.t :=
  (fun kr => User.of_row kr.1 kr.2) <$> map_to_list m.

(** Every storage call is logged and may fail. *)
Definition call {A} (op : DbOp) (run : M A) : M A := fun w =>
  if outage w (length (log w)) then (Throw, record_op op w)
  else run (record_op op w).

(** The client validates its arguments before it queries: [undefined]
    where a value is required throws. *)
Definition required {A} (v : option string) (k : string -> M A) : M A :=
  match v with
  | None => throw
  | Some s => k s
  end.

Definition by_email (e : string) (u : User.t) : bool :=
  bool_decide (User.email u = e).

Definition by_sessionToken (tok : string) (u : User.t) : bool :=
  bool_decide (User.sessionToken u = Some tok).

(** [db.user.findUnique({ where: { email } })]. *)
Definition findUnique_email (email : option string) : M (option User.t) :=
  required email (fun e =>
    call (OpFindUniqueEmail e) (fun w =>
      (Ok (List.find (by_email e) (all (users w))), w))).

(** [db.user.findUnique({ where: { id } })]. *)
Definition findUnique_id (id : option string) : M (option User.t) :=
  required id (fun i =>
    call (OpFindUniqueId i) (fun w =>
      (Ok (User.of_row i <$> users w !! i), w))).

Definition by_filter (f : option string -> bool) (u : User.t) : bool :=
  f (User.sessionToken u).

(** [db.user.findFirst({ where: { sessionToken } })], with whatever value
    the caller holds: [undefined] is no filter, a string is an equality,
    [null] asks for a null column, an object is a filter of the client's
    own, and a boolean, a number or an array is rejected before any
    query. *)
Definition findFirst_sessionToken `{StringFilter} (sessionToken : option Js)
  : M (option User.t) :=
  match sessionToken with
  | None =>
      call (OpFindFirstToken None) (fun w => (Ok (head (all (users w))), w))
  | Some (JsString tok) =>
      call (OpFindFirstToken (Some tok)) (fun w =>
        (Ok (List.find (by_sessionToken tok) (all (users w))), w))
  | Some JsNull =>
      call (OpFindFirstWhere JsNull) (fun w =>
        (Ok (List.find (by_filter (fun t => bool_decide (t = None)))
               (all (users w))), w))
  | Some (JsObject fields) =>
      match string_filter fields with
      | None => throw
      | Some f =>
          call (OpFindFirstWhere (JsObject fields)) (fun w =>
            (Ok (List.find (by_filter f) (all (users w))), w))
      end
  | Some (JsBool _) => throw
  | Some (JsNumber _) => throw
  | Some (JsArray _) => throw
  end.

(** [db.user.findMany()]. *)
Definition findMany : M (list User.t) :=
  call OpFindMany (fun w => (Ok (all (users w)), w)).

(** [db.user.create({ data: { email, password, username } })]: the id is
    generated, [salt] and [sessionToken] are null.  A violated primary key
    or a violated [@unique] on [email] throws. *)
Definition create `{IdGen} (email password username : option string)
  : M User.t :=
  required email (fun e => required password (fun p => required username (fun n =>
    call (OpCreate e) (fun w =>
      let i := cuid (ids w) in
      let w1 := set_ids (S (ids w)) w in
      let r := User.mkRow n e p None None in
      match users w !! i with
      | Some _ => (Throw, w1)
      | None =>
          match List.find (by_email e) (all (users w)) with
          | Some _ => (Throw, w1)
          | None => (Ok (User.of_row i r), set_users (<[i := r]> (users w)) w1)
          end
      end)))).

(** [db.user.update({ where: { id }, data, select })]: throws when no
    record has the id. *)
Definition update {A} (id : option string) (data : User.row -> User.row)
    (select : User.t -> A) : M A :=
  required id (fun i =>
    call (OpUpdate i) (fun w =>
      match users w !! i with
      | None => (Throw, w)
      | Some r =>
          (Ok (select (User.of_row i (data r))),
           set_users (<[i := data r]> (users w)) w)
      end)).

(** [db.user.delete({ where: { id } })]: throws when no record has the
    id, returns the deleted record otherwise. *)
Definition delete (id : option string) : M User.t :=
  required id (fun i =>
    call (OpDelete i) (fun w =>
      match users w !! i with
      | None => (Throw, w)
      | Some r => (Ok (User.of_row i r), set_users (base.delete i (users w)) w)
      end)).
End db.

(** ** Requests and responses *)

Record Request := mkRequest {
  cookies : gmap string Js;         (* req.cookies *)
  body : gmap string string;        (* req.body *)
  params : gmap string string;      (* req.params *)
  identity : option User.t          (* req.identity, set by the gate *)
}.

(** [merge(req, { identity: u })] on a request that has no identity yet:
    the record is copied, null fields included. *)
Definition merge_identity (req : Request) (u : User.t) : Request :=
  mkRequest (cookies req) (body req) (params req) (Some u).

Record Cookie := mkCookie {
  c_name : string;
  c_value : string;
  c_domain : string;
  c_path : string
}.

Inductive Json :=
| StatusText                        (* the body written by sendStatus *)
| JUser (u : User.t)
| JSelected (u : User.selected)
| JUsers (us : list User.t).

Record Response := mkResponse {
  status : nat;
  json : Json;
  set_cookie : option Cookie
}.

(** [res.sendStatus(code)]. *)
Definition sendStatus (code : nat) : Response := mkResponse code StatusText None.

(** [res.status(code).json(payload)]. *)
Definition status_json (code : nat) (payload : Json) : Response :=
  mkResponse code payload None.

(** [res.cookie(name, value, { domain, path })]: a string value is written
    as it is, [null] is written as the JSON cookie [j:null]. *)
Definition cookie_value (v : option string) : string :=
  match v with
  | Some s => s
  | None => "j:null"
  end.

Definition with_cookie (c : Cookie) (r : Response) : Response :=
  mkResponse (status r) (json r) (Some c).

(** What a middleware does: call [next()] or answer. *)
Inductive Step :=
| Next (req : Request)
| Respond (res : Response).

Definition Handler : Type := Request -> World -> Response * World.
Definition Middleware : Type := Request -> World -> Step * World.

(** ** controllers/auth.ts *)

Definition register `{Bcrypt, IdGen} : Handler := fun req =>
  try_catch (
    let email := body req !! "email" in
    let password := body req !! "password" in
    let username := body req !! "username" in
    if negb (truthy email) || negb (truthy password) || negb (truthy username)
    then ret (sendStatus 400)
    else
      await existingUser <- db.findUnique_email email ;;
      match existingUser with
      | Some _ => ret (sendStatus 409)
      | None =>
          await hashedPassword <- hash password 10 ;;
          await newUser <- db.create email (Some hashedPassword) username ;;
          ret (status_json 200 (JUser newUser))
      end
  ) (sendStatus 400).

Definition login `{Bcrypt} : Handler := fun req =>
  try_catch (
    let email := body req !! "email" in
    let password := body req !! "password" in
    if negb (truthy email) || negb (truthy password)
    then ret (sendStatus 400)
    else
      await existingUser <- db.findUnique_email email ;;
      match existingUser with
      | None => ret (sendStatus 401)
      | Some existingUser =>
          await isValidPassword <- compare password (User.password existingUser) ;;
          if negb isValidPassword
          then ret (sendStatus 401)
          else
            (* Create a hashed session token. *)
            await sessionToken <- hash (Some (User.id existingUser)) 10 ;;
            await updatedUser <-
              db.update (Some (User.id existingUser))
                (User.set_sessionToken sessionToken) User.select ;;
            ret (with_cookie
                   (mkCookie "EXPRESS-API-AUTH"
                      (cookie_value (User.s_sessionToken updatedUser))
                      "localhost" "/")
                   (status_json 200 (JSelected updatedUser)))
      end
  ) (sendStatus 400).

(** ** controllers/users.ts *)

Definition getAllUsers : Handler := fun req =>
  try_catch (
    await users <- db.findMany ;;
    ret (status_json 200 (JUsers users))
  ) (sendStatus 400).

Definition deleteUser : Handler := fun req =>
  try_catch (
    let id := params req !! "id" in
    await deleteduser <- db.delete id ;;
    ret (status_json 200 (JUser deleteduser))
  ) (sendStatus 400).

Definition updateUser : Handler := fun req =>
  try_catch (
    let id := params req !! "id" in
    let username := body req !! "username" in
    if negb (truthy username)
    then ret (sendStatus 400)
    else
      await existinguser <- db.findUnique_id id ;;
      match existinguser with
      | None => ret (sendStatus 400)
      | Some _ =>
          await updateduser <-
            db.update id (User.set_username username) (fun u => u) ;;
          ret (status_json 200 (JUser updateduser))
      end
  ) (sendStatus 400).

(** ** middleware/index.ts *)

Definition isAuthenticated `{StringFilter} : Middleware := fun req =>
  try_catch (
    (* NOTE: This cookie name must be the same as the one we set in login
       controller. *)
    let sessionToken := cookies req !! "EXPRESS-API-AUTH" in
    if negb (js_truthy sessionToken)
    then ret (Respond (sendStatus 403))
    else
      await existingUser <- db.findFirst_sessionToken sessionToken ;;
      match existingUser with
      | None => ret (Respond (sendStatus 403))
      | Some existingUser => ret (Next (merge_identity req existingUser))
      end
  ) (Respond (sendStatus 400)).

Definition isOwnAccount : Middleware := fun req =>
  try_catch (
    let id := params req !! "id" in
    (* get(req, "identity.id") *)
    let identity := User.id <$> identity req in
    let currentUserId := identity in
    if negb (truthy currentUserId)
    then ret (Respond (sendStatus 403))
    else if bool_decide (currentUserId <> id)
    then ret (Respond (sendStatus 403))
    else ret (Next req)
  ) (Respond (sendStatus 400)).

(** ** router/*.ts *)

Inductive Method := GET | POST | PATCH | DELETE.

Record Route := mkRoute {
  gates : list Middleware;
  handler : Handler;
  bound : gmap string string       (* the route parameters *)
}.

(** A handler chain: each middleware either answers or hands the request
    on to the next one. *)
Fixpoint run_chain (mws : list Middleware) (h : Handler) : Handler := fun req w =>
  match mws with
  | [] => h req w
  | mw :: rest =>
      match mw req w with
      | (Next req1, w1) => run_chain rest h req1 w1
      | (Respond res, w1) => (res, w1)
      end
  end.

(** The route table of [auth(router)] and [users(router)].  A path is given
    by its segments; [:id] binds one non-empty segment. *)
Definition route `{Bcrypt, IdGen, StringFilter} (m : Method) (path : list string) : option Route :=
  match m, path with
  | POST, ["auth"; "register"] => Some (mkRoute [] register ∅)
  | POST, ["auth"; "login"] => Some (mkRoute [] login ∅)
  | GET, ["users"] => Some (mkRoute [isAuthenticated] getAllUsers ∅)
  | DELETE, ["users"; i] =>
      if bool_decide (i = "") then None
      else Some (mkRoute [isAuthenticated; isOwnAccount] deleteUser {["id" := i]})
  | PATCH, ["users"; i] =>
      if bool_decide (i = "") then None
      else Some (mkRoute [isAuthenticated; isOwnAccount] updateUser {["id" := i]})
  | _, _ => None
  end.

Definition with_params (p : gmap string string) (req : Request) : Request :=
  mkRequest (cookies req) (body req) p (identity req).

(** The application: an unmatched request is answered 404 by the framework. *)
Definition app `{Bcrypt, IdGen, StringFilter} (m : Method) (path : list string) : Handler :=
  fun req w =>
    match route m path with
    | None => (sendStatus 404, w)
    | Some r => run_chain (gates r) (handler r) (with_params (bound r) req) w
    end.

(** ** Sample collaborators and worlds *)

(** A toy digest: one character drawn from the entropy, then the data. *)
Definition sample_bcrypt : Bcrypt := {|
  bcrypt_hash n data rounds := String (Ascii.ascii_of_nat (48 + n)) data;
  bcrypt_compare data digest :=
    match digest with
    | String _ d => bool_decide (d = data)
    | EmptyString => false
    end
|}.

Definition sample_ids : IdGen := {|
  cuid n := String (Ascii.ascii_of_nat (97 + n)) "id"
|}.

(** A client that takes the empty object as the filter without condition
    and rejects every other object. *)
Definition sample_filter : StringFilter := {|
  string_filter fields :=
    match fields with
    | [] => Some (fun _ => true)
    | _ :: _ => None
    end
|}.

Definition no_outage : nat -> bool := fun _ => false.

Definition empty_world : World := mkWorld ∅ 0 0 [] no_outage.

(** One registered user: alice, never logged in. *)
Definition alice_row : User.row :=
  User.mkRow "alice" "a@x.com" "0p" None None.

Definition world1 : World :=
  mkWorld {["aid" := alice_row]} 1 1 [] no_outage.

(** Two users, both logged in. *)
Definition bob_row : User.row :=
  User.mkRow "bob" "b@x.com" "1q" None (Some "3bid").

Definition world2 : World :=
  mkWorld (<["bid" := bob_row]>
           {["aid" := User.set_sessionToken "2aid" alice_row]}) 2 4 [] no_outage.

(** The same table behind a storage that fails on every call. *)
Definition world_down : World :=
  mkWorld (users world2) 2 4 [] (fun _ => true).

Definition request (c b : list (string * string)) : Request :=
  mkRequest (list_to_map (prod_map id JsString <$> c)) (list_to_map b) ∅ None.

(** A request whose session cookie was sent as [j:<json>]. *)
Definition with_json_session (v : Js) : Request :=
  mkRequest {["EXPRESS-API-AUTH" := v]} ∅ ∅ None.

Definition alice : User.t := User.of_row "aid" alice_row.

(** alice as stored in [world2], logged in. *)
Definition alice2 : User.t :=
  User.of_row "aid" (User.set_sessionToken "2aid" alice_row).

Definition register_alice : Request :=
  request [] [("email", "a@x.com"); ("password", "p"); ("username", "alice")].

Definition login_alice : Request :=
  request [] [("email", "a@x.com"); ("password", "p")].

Definition login_wrong_password : Request :=
  request [] [("email", "a@x.com"); ("password", "guess")].

Definition login_unknown : Request :=
  request [] [("email", "z@x.com"); ("password", "p")].

Definition with_session (tok : string) : Request :=
  request [("EXPRESS-API-AUTH", tok)] [].

(** A request of alice on [/users/aid], past the Authentication Gate. *)
Definition on_own_account (b : list (string * string)) : Request :=
  mkRequest {["EXPRESS-API-AUTH" := JsString "2aid"]} (list_to_map b)
    {["id" := "aid"]}
    (Some alice2).

Definition delete_route `{StringFilter} : Route :=
  mkRoute [isAuthenticated; isOwnAccount] deleteUser {["id" := "aid"]}.

(** The scenario of the specification, run through the route table:
    register, log in, list, rename, delete, list again. *)
Definition scenario : list Response :=
  let serve := app (H := sample_bcrypt) (H0 := sample_ids) (H1 := sample_filter) in
  let '(r1, w1) := serve POST ["auth"; "register"] register_alice empty_world in
  let '(r2, w2) := serve POST ["auth"; "login"] login_alice w1 in
  let session := with_session "1aid" in
  let '(r3, w3) := serve GET ["users"] session w2 in
  let '(r4, w4) :=
    serve PATCH ["users"; "aid"]
      (request [("EXPRESS-API-AUTH", "1aid")] [("username", "b")]) w3 in
  let '(r5, w5) := serve DELETE ["users"; "aid"] session w4 in
  let '(r6, w6) := serve GET ["users"] session w5 in
  [r1; r2; r3; r4; r5; r6].

(** ** The route table as a relation, and the invariant of the table *)

(** The five routes, read off [auth(router)] and [users(router)]. *)
Inductive routed `{Bcrypt, IdGen, StringFilter} : Method -> list string -> Route -> Prop :=
| routed_register : routed POST ["auth"; "register"] (mkRoute [] register ∅)
| routed_login : routed POST ["auth"; "login"] (mkRoute [] login ∅)
| routed_list : routed GET ["users"] (mkRoute [isAuthenticated] getAllUsers ∅)
| routed_delete i : i <> "" ->
    routed DELETE ["users"; i]
      (mkRoute [isAuthenticated; isOwnAccount] deleteUser {["id" := i]})
| routed_patch i : i <> "" ->
    routed PATCH ["users"; i]
      (mkRoute [isAuthenticated; isOwnAccount] updateUser {["id" := i]}).

(** No two rows of the table share an email: what [@unique] asks for. *)
Definition emails_unique (m : gmap string User.row) : Prop :=
  forall i j r s, m !! i = Some r -> m !! j = Some s ->
    User.r_email r = User.r_email s -> i = j.

(** The statuses a handler of this repository answers with. *)
Definition handler_status (code : nat) : Prop :=
  code = 200 \/ code = 400 \/ code = 401 \/ code = 403 \/ code = 409.

(** A request of alice, logged in, on the account of bob. *)
Definition on_other_account (b : list (string * string)) : Request :=
  request [("EXPRESS-API-AUTH", "2aid")] b.

(** What answering one request amounts to: the response, and the table
    afterwards. *)
Inductive served `{Bcrypt, IdGen, StringFilter} (m : Method) (path : list string) (w : World)
  : Response -> gmap string User.row -> Prop :=
| served_unrouted :
    route m path = None -> served m path w (sendStatus 404) (users w)
| served_refused code :
    is_Some (route m path) ->
    code = 400 \/ code = 401 \/ code = 403 \/ code = 409 ->
    served m path w (sendStatus code) (users w)
| served_list :
    m = GET -> path = ["users"] ->
    served m path w (status_json 200 (JUsers (db.all (users w)))) (users w)
| served_register i r :
    m = POST -> path = ["auth"; "register"] ->
    users w !! i = None ->
    (forall j s, users w !! j = Some s -> User.r_email s <> User.r_email r) ->
    served m path w (status_json 200 (JUser (User.of_row i r)))
      (<[i := r]> (users w))
| served_login i r tok :
    m = POST -> path = ["auth"; "login"] ->
    users w !! i = Some r ->
    served m path w
      (mkResponse 200
         (JSelected (User.mkSelected i (User.r_email r) (User.r_username r)
                       (Some tok)))
         (Some (mkCookie "EXPRESS-API-AUTH" tok "localhost" "/")))
      (<[i := User.set_sessionToken tok r]> (users w))
| served_patch i r n :
    m = PATCH -> path = ["users"; i] ->
    users w !! i = Some r ->
    served m path w
      (status_json 200 (JUser (User.of_row i (User.set_username (Some n) r))))
      (<[i := User.set_username (Some n) r]> (users w))
| served_delete i r :
    m = DELETE -> path = ["users"; i] ->
    users w !! i = Some r ->
    served m path w (status_json 200 (JUser (User.of_row i r)))
      (delete i (users w)).

Definition register_bob : Request :=
  request [] [("email", "b@x.com"); ("password", "q"); ("username", "bob")].


(** * Properties *)

(** ** The table *)

(** [u] is a record of the table. *)
Definition stored (w : World) (u : User.t) : Prop :=
  users w !! User.id u = Some (User.to_row u).

Lemma of_row_to_row (u : User.t) : User.of_row (User.id u) (User.to_row u) = u.
Proof. by destruct u. Qed.

Lemma to_row_of_row (k : string) (r : User.row) : User.to_row (User.of_row k r) = r.
Proof. by destruct r. Qed.

Lemma stored_of_row (w : World) (k : string) (r : User.row) :
  users w !! k = Some r -> stored w (User.of_row k r).
Proof. intros Hk. unfold stored. by rewrite to_row_of_row. Qed.

Lemma elem_of_all (m : gmap string User.row) (u : User.t) :
  u ∈ db.all m <-> m !! User.id u = Some (User.to_row u).
Proof.
  unfold db.all. rewrite list_elem_of_fmap. split.
  - intros [[k r] [-> Hin]]. apply elem_of_map_to_list in Hin.
    simpl. by rewrite to_row_of_row.
  - intros Hu. exists (User.id u, User.to_row u). split.
    + simpl. by rewrite of_row_to_row.
    + by apply elem_of_map_to_list.
Qed.

(** A property of every stored record can be checked on the list of
    records. *)
Lemma stored_forall (w : World) (P : User.t -> Prop) :
  Forall P (db.all (users w)) -> forall u, stored w u -> P u.
Proof.
  intros HP u Hu. apply elem_of_all in Hu.
  by apply (proj1 (Forall_forall P _) HP).
Qed.

Section find.
Context (P : User.t -> bool) (m : gmap string User.row).

Lemma find_all_Some (u : User.t) :
  List.find P (db.all m) = Some u ->
  m !! User.id u = Some (User.to_row u) /\ P u = true.
Proof.
  intros Hf. apply find_some in Hf as [Hin HP]. split; [|done].
  by apply elem_of_all, list_elem_of_In.
Qed.

Lemma find_all_None :
  List.find P (db.all m) = None ->
  forall u, m !! User.id u = Some (User.to_row u) -> P u = false.
Proof.
  intros Hf u Hu. apply (find_none _ _ Hf).
  by apply list_elem_of_In, elem_of_all.
Qed.

Lemma find_all_is_Some (u : User.t) :
  m !! User.id u = Some (User.to_row u) -> P u = true ->
  is_Some (List.find P (db.all m)).
Proof.
  intros Hu HP. destruct (List.find P (db.all m)) eqn:Hf; [by eexists|].
  rewrite (find_all_None Hf u Hu) in HP. discriminate.
Qed.

(** When one record only satisfies the filter, it is the one found. *)
Lemma find_all_unique (u : User.t) :
  m !! User.id u = Some (User.to_row u) -> P u = true ->
  (forall v, m !! User.id v = Some (User.to_row v) -> P v = true -> v = u) ->
  List.find P (db.all m) = Some u.
Proof.
  intros Hu HP Huniq. destruct (find_all_is_Some u Hu HP) as [v Hv].
  rewrite Hv. f_equal. apply find_all_Some in Hv as [Hv1 Hv2]. by apply Huniq.
Qed.
End find.

Lemma truthy_Some (s : string) : s <> "" -> truthy (Some s) = true.
Proof. intros Hs. simpl. by rewrite bool_decide_eq_false_2. Qed.

Lemma truthy_inv (v : option string) :
  truthy v = true -> exists s, v = Some s /\ s <> "".
Proof.
  destruct v as [s|]; [|done]. simpl. intros Hs. exists s. split; [done|].
  intros ->. by rewrite bool_decide_eq_true_2 in Hs.
Qed.

(** ** The Authentication Gate *)

Lemma js_truthy_string (s : string) : s <> "" -> js_truthy (Some (JsString s)) = true.
Proof. intros Hs. simpl. by rewrite bool_decide_eq_false_2. Qed.

(** What the gate does once it holds a non-empty string as cookie. *)
Lemma isAuthenticated_run `{StringFilter} (req : Request) (w : World) (tok : string) :
  cookies req !! "EXPRESS-API-AUTH" = Some (JsString tok) -> tok <> "" ->
  isAuthenticated req w =
    if outage w (length (log w))
    then (Respond (sendStatus 400), record_op (OpFindFirstToken (Some tok)) w)
    else
      (match List.find (db.by_sessionToken tok) (db.all (users w)) with
       | None => Respond (sendStatus 403)
       | Some u => Next (merge_identity req u)
       end, record_op (OpFindFirstToken (Some tok)) w).
Proof.
  intros Hc Htok. unfold isAuthenticated, try_catch. rewrite Hc.
  rewrite (js_truthy_string _ Htok). simpl. unfold bind, db.call.
  destruct (outage w (length (log w))); [done|].
  by destruct (List.find _ _).
Qed.

(** What the gate does once it holds an object that the client takes as
    a filter. *)
Lemma isAuthenticated_run_object `{StringFilter} (req : Request) (w : World)
    (fields : list (string * Js)) (f : option string -> bool) :
  cookies req !! "EXPRESS-API-AUTH" = Some (JsObject fields) ->
  string_filter fields = Some f ->
  isAuthenticated req w =
    if outage w (length (log w))
    then (Respond (sendStatus 400),
          record_op (OpFindFirstWhere (JsObject fields)) w)
    else
      (match List.find (db.by_filter f) (db.all (users w)) with
       | None => Respond (sendStatus 403)
       | Some u => Next (merge_identity req u)
       end, record_op (OpFindFirstWhere (JsObject fields)) w).
Proof.
  intros Hc Hf. unfold isAuthenticated, try_catch. rewrite Hc. simpl.
  unfold bind, db.findFirst_sessionToken. rewrite Hf. unfold db.call.
  destruct (outage w (length (log w))); [done|].
  by destruct (List.find _ _).
Qed.

(** Every way the gate can go: it refuses on the spot (403 for a falsy
    cookie, 400 for a value the client rejects), or it issues one lookup,
    after which it answers 400 or 403 or hands on the request with a
    stored record as identity.  For a string cookie that record holds the
    cookie as [sessionToken]. *)
Lemma isAuthenticated_cases `{StringFilter} (req : Request) (w : World) :
  isAuthenticated req w = (Respond (sendStatus 403), w) \/
  isAuthenticated req w = (Respond (sendStatus 400), w) \/
  (js_truthy (cookies req !! "EXPRESS-API-AUTH") = true /\
   exists op, let w1 := record_op op w in
     isAuthenticated req w = (Respond (sendStatus 400), w1) \/
     isAuthenticated req w = (Respond (sendStatus 403), w1) \/
     exists u, stored w u /\
       (forall tok, cookies req !! "EXPRESS-API-AUTH" = Some (JsString tok) ->
          tok <> "" /\ User.sessionToken u = Some tok) /\
       isAuthenticated req w = (Next (merge_identity req u), w1)).
Proof.
  destruct (cookies req !! "EXPRESS-API-AUTH") as [[|b|n|s|items|fields]|] eqn:Hc.
  - left. unfold isAuthenticated, try_catch. by rewrite Hc.
  - destruct b; [right|]; left; unfold isAuthenticated, try_catch; by rewrite Hc.
  - destruct (decide (n = 0%Z)) as [->|Hn]; [|right]; left;
      unfold isAuthenticated, try_catch; rewrite Hc; simpl; [done|].
    by rewrite bool_decide_eq_false_2.
  - destruct (decide (s = "")) as [->|Hs].
    { left. unfold isAuthenticated, try_catch. by rewrite Hc. }
    right. right. split; [by apply js_truthy_string|].
    exists (OpFindFirstToken (Some s)). simpl.
    rewrite (isAuthenticated_run req w s Hc Hs).
    destruct (outage w (length (log w))); [by left|]. right.
    destruct (List.find _ _) as [u|] eqn:Hf; [right|by left].
    apply find_all_Some in Hf as [Hu HP]. apply bool_decide_eq_true in HP.
    exists u. split; [done|]. split; [|done]. by intros tok [= <-].
  - right. left. unfold isAuthenticated, try_catch. by rewrite Hc.
  - destruct (string_filter fields) as [f|] eqn:Hf.
    + right. right. split; [done|].
      exists (OpFindFirstWhere (JsObject fields)). simpl.
      rewrite (isAuthenticated_run_object req w fields f Hc Hf).
      destruct (outage w (length (log w))); [by left|]. right.
      destruct (List.find _ _) as [u|] eqn:Hu; [right|by left].
      apply find_all_Some in Hu as [Hu _].
      exists u. split; [done|]. split; [|done]. by intros tok [=].
    + right. left. unfold isAuthenticated, try_catch. rewrite Hc. simpl.
      unfold bind, db.findFirst_sessionToken. by rewrite Hf.
  - left. unfold isAuthenticated, try_catch. by rewrite Hc.
Qed.

(** A cookie that is a number, [true] or an array is truthy, and the
    client rejects it as a value for [sessionToken]: the gate answers 400
    without a storage call. *)
Lemma isAuthenticated_rejected_cookie `{StringFilter} (req : Request) (w : World)
    (v : Js) :
  cookies req !! "EXPRESS-API-AUTH" = Some v ->
  (exists n, v = JsNumber n /\ n <> 0%Z) \/ v = JsBool true \/
    (exists items, v = JsArray items) ->
  isAuthenticated req w = (Respond (sendStatus 400), w).
Proof.
  intros Hc Hv. unfold isAuthenticated, try_catch. rewrite Hc.
  destruct Hv as [(n & -> & Hn) | [-> | (items & ->)]]; simpl; [|done|done].
  by rewrite bool_decide_eq_false_2.
Qed.

(** C1. The code departs from the claim.  The claim has the gate answer
    403 whenever no stored record's [sessionToken] equals the cookie
    value.  A cookie sent as [j:{}] reaches the gate as the empty object,
    which is truthy and which the client takes as the filter without
    condition: although it is the [sessionToken] of no record, the gate
    hands the request on, with a stored record as its identity, as soon
    as the table has a record. *)
Theorem isAuthenticated_object_cookie `{StringFilter} (req : Request) (w : World)
    (v : User.t) :
  string_filter [] = Some (fun _ => true) ->
  cookies req !! "EXPRESS-API-AUTH" = Some (JsObject []) ->
  outage w (length (log w)) = false ->
  stored w v ->
  (forall u, stored w u ->
     JsString <$> User.sessionToken u <> cookies req !! "EXPRESS-API-AUTH") /\
  exists u req', stored w u /\
    (isAuthenticated req w).1 = Next req' /\ identity req' = Some u.
Proof.
  intros Hf Hc Hup Hv. split.
  - intros u _. rewrite Hc. by destruct (User.sessionToken u).
  - rewrite (isAuthenticated_run_object req w [] _ Hc Hf), Hup. simpl.
    destruct (find_all_is_Some (db.by_filter (fun _ => true)) (users w) v Hv)
      as [u Hu]; [done|].
    rewrite Hu. apply find_all_Some in Hu as [Hu _].
    by exists u, (merge_identity req u).
Qed.

(** X19. The Authentication Gate on a string cookie, as [login] sets it:
    without a truthy cookie the gate answers 403 and issues no storage
    call; with a cookie that is the [sessionToken] of no stored record it
    answers 403; with a cookie that is the [sessionToken] of a stored
    record, the request goes on with such a record as its identity and
    nothing else changed; when the storage call fails, the answer is 400.
    Whatever the cookie, the table is never modified. *)
Theorem isAuthenticated_spec `{StringFilter} (req : Request) (w : World) :
  let cookie := cookies req !! "EXPRESS-API-AUTH" in
  (js_truthy cookie = false ->
     isAuthenticated req w = (Respond (sendStatus 403), w)) /\
  (forall tok, cookie = Some (JsString tok) -> tok <> "" ->
     outage w (length (log w)) = false ->
     (forall u, stored w u -> User.sessionToken u <> Some tok) ->
     (isAuthenticated req w).1 = Respond (sendStatus 403)) /\
  (forall tok, cookie = Some (JsString tok) -> tok <> "" ->
     outage w (length (log w)) = false ->
     (exists u, stored w u /\ User.sessionToken u = Some tok) ->
     exists u req', stored w u /\ User.sessionToken u = Some tok /\
       (isAuthenticated req w).1 = Next req' /\
       identity req' = Some u /\ cookies req' = cookies req /\
       body req' = body req /\ params req' = params req) /\
  (forall tok, cookie = Some (JsString tok) -> tok <> "" ->
     outage w (length (log w)) = true ->
     (isAuthenticated req w).1 = Respond (sendStatus 400)) /\
  users (isAuthenticated req w).2 = users w.
Proof.
  intros cookie. repeat split.
  - intros Hc. unfold isAuthenticated, try_catch. fold cookie. by rewrite Hc.
  - intros tok Hc Htok Hup Hnone.
    rewrite (isAuthenticated_run _ _ _ Hc Htok), Hup. simpl.
    destruct (List.find _ _) as [u|] eqn:Hf; [|done].
    apply find_all_Some in Hf as [Hu HP]. apply bool_decide_eq_true in HP.
    by destruct (Hnone u Hu).
  - intros tok Hc Htok Hup (u & Hu & Htoku).
    rewrite (isAuthenticated_run _ _ _ Hc Htok), Hup. simpl.
    destruct (find_all_is_Some (db.by_sessionToken tok) (users w) u Hu)
      as [v Hv]; [by apply bool_decide_eq_true|].
    rewrite Hv. apply find_all_Some in Hv as [Hv HP].
    apply bool_decide_eq_true in HP. by exists v, (merge_identity req v).
  - intros tok Hc Htok Hdown.
    by rewrite (isAuthenticated_run _ _ _ Hc Htok), Hdown.
  - destruct (isAuthenticated_cases req w)
      as [-> | [-> | (_ & op & [-> | [-> | (u & _ & _ & ->)]])]]; done.
Qed.

(** ** The Ownership Gate *)

(** The gate as a function of the identity and of the route parameter. *)
Lemma isOwnAccount_run (req : Request) (w : World) :
  isOwnAccount req w =
    match identity req with
    | None => (Respond (sendStatus 403), w)
    | Some u =>
        if bool_decide (User.id u = "") then (Respond (sendStatus 403), w)
        else if bool_decide (params req !! "id" = Some (User.id u))
        then (Next req, w)
        else (Respond (sendStatus 403), w)
    end.
Proof.
  unfold isOwnAccount, try_catch. destruct (identity req) as [u|]; [|done].
  simpl. destruct (bool_decide (User.id u = "")); [done|]. simpl.
  destruct (decide (params req !! "id" = Some (User.id u))) as [Heq|Hne].
  - rewrite bool_decide_eq_false_2 by (intros Hd; by apply Hd).
    by rewrite bool_decide_eq_true_2.
  - rewrite bool_decide_eq_true_2 by (intros Hd; by apply Hne).
    by rewrite bool_decide_eq_false_2.
Qed.

(** The routes with an [:id] run both gates, in this order, and bind a
    non-empty id. *)
Lemma route_users_id `{Bcrypt, IdGen, StringFilter} (m : Method) (i : string) (r : Route) :
  m = PATCH \/ m = DELETE -> route m ["users"; i] = Some r ->
  i <> "" /\ gates r = [isAuthenticated; isOwnAccount] /\ bound r = {["id" := i]}.
Proof.
  intros [-> | ->]; simpl; case_bool_decide; intros [= <-]; done.
Qed.

(** C2. The Ownership Gate on [PATCH /users/:id] and [DELETE /users/:id]:
    the route runs the gate after the Authentication Gate; without an
    identity the gate answers 403; with an identity whose id differs from
    the route parameter it answers 403; otherwise the request goes on
    unchanged.  In every branch the world is left as it was: no storage
    call is issued. *)
Theorem isOwnAccount_spec `{Bcrypt, IdGen, StringFilter} (m : Method) (i : string) (r : Route)
    (req : Request) (w : World) :
  m = PATCH \/ m = DELETE -> route m ["users"; i] = Some r ->
  params req = bound r ->
  gates r = [isAuthenticated; isOwnAccount] /\
  (identity req = None ->
     isOwnAccount req w = (Respond (sendStatus 403), w)) /\
  (forall u, identity req = Some u -> User.id u <> i ->
     isOwnAccount req w = (Respond (sendStatus 403), w)) /\
  (forall u, identity req = Some u -> User.id u = i ->
     isOwnAccount req w = (Next req, w)) /\
  (isOwnAccount req w).2 = w.
Proof.
  intros Hm Hr Hp. destruct (route_users_id m i r Hm Hr) as (Hi & Hg & Hb).
  assert (params req !! "id" = Some i) as Hid.
  { rewrite Hp, Hb. apply lookup_singleton_eq. }
  rewrite isOwnAccount_run, Hid. repeat split; [done| | | |].
  - by intros ->.
  - intros u -> Hne. case_bool_decide; [done|].
    rewrite bool_decide_eq_false_2; [done|]. intros [= Heq]. by apply Hne.
  - intros u -> <-. rewrite bool_decide_eq_false_2 by done.
    by rewrite bool_decide_eq_true_2.
  - destruct (identity req) as [u|]; [|done]. by repeat case_bool_decide.
Qed.

(** ** Registration *)

Ltac run :=
  unfold try_catch, bind, ret, throw, hash, compare, db.findUnique_email,
    db.findUnique_id, db.findFirst_sessionToken, db.findMany, db.create,
    db.update, db.delete, db.required, db.call; simpl.

(** A filter by email finds a record exactly when one is stored. *)
Lemma find_email_None (w : World) (e : string) :
  (forall u, stored w u -> User.email u <> e) ->
  List.find (db.by_email e) (db.all (users w)) = None.
Proof.
  intros Hnone. destruct (List.find _ _) as [u|] eqn:Hf; [|done].
  apply find_all_Some in Hf as [Hu HP]. apply bool_decide_eq_true in HP.
  by destruct (Hnone u Hu).
Qed.

Lemma find_email_Some (w : World) (e : string) :
  (exists u, stored w u /\ User.email u = e) ->
  exists v, List.find (db.by_email e) (db.all (users w)) = Some v /\
            stored w v /\ User.email v = e.
Proof.
  intros (u & Hu & He).
  destruct (find_all_is_Some (db.by_email e) (users w) u Hu) as [v Hv];
    [by apply bool_decide_eq_true|].
  exists v. split; [done|]. apply find_all_Some in Hv as [Hv HP].
  by apply bool_decide_eq_true in HP.
Qed.

Lemma find_email_unique (w : World) (e : string) (u : User.t) :
  stored w u -> User.email u = e ->
  (forall v, stored w v -> User.email v = e -> v = u) ->
  List.find (db.by_email e) (db.all (users w)) = Some u.
Proof.
  intros Hu He Huniq. apply find_all_unique; [done|by apply bool_decide_eq_true|].
  intros v Hv HP. apply bool_decide_eq_true in HP. by apply Huniq.
Qed.


(** A complete registration for an email that is taken. *)
Lemma register_taken `{Bcrypt, IdGen} (req : Request) (w : World) (e p n : string) :
  body req !! "email" = Some e -> body req !! "password" = Some p ->
  body req !! "username" = Some n -> e <> "" -> p <> "" -> n <> "" ->
  outage w (length (log w)) = false ->
  (exists u, stored w u /\ User.email u = e) ->
  register req w = (sendStatus 409, record_op (OpFindUniqueEmail e) w).
Proof.
  intros He Hp Hn He' Hp' Hn' Hup Hex. unfold register.
  rewrite He, Hp, Hn, !truthy_Some by done. run. rewrite Hup.
  destruct (find_email_Some w e Hex) as (v & -> & _). done.
Qed.


(** C7. Registration conflict: when a stored record has the email of a
    complete registration request, the answer is 409 and the world is
    touched only by the log entry of the lookup: the table, hence that
    record with all its fields, is as before, and neither an id nor
    entropy was consumed. *)
Theorem register_conflict_unchanged `{Bcrypt, IdGen} (req : Request) (w : World)
    (u : User.t) (e p n : string) :
  stored w u -> User.email u = e ->
  body req !! "email" = Some e -> body req !! "password" = Some p ->
  body req !! "username" = Some n -> e <> "" -> p <> "" -> n <> "" ->
  outage w (length (log w)) = false ->
  (register req w).1 = sendStatus 409 /\
  users (register req w).2 = users w /\
  stored (register req w).2 u /\
  ids (register req w).2 = ids w /\
  entropy (register req w).2 = entropy w.
Proof.
  intros Hu Hue He Hp Hn He' Hp' Hn' Hup.
  rewrite (register_taken req w e p n) by eauto. done.
Qed.

(** ** Login *)

(** The guard of [login]. *)
Lemma login_guard `{Bcrypt} (req : Request) (w : World) :
  truthy (body req !! "email") = false \/
  truthy (body req !! "password") = false ->
  login req w = (sendStatus 400, w).
Proof.
  intros Hg. unfold login, try_catch.
  destruct Hg as [-> | ->]; simpl; [done|]. by rewrite orb_true_r.
Qed.

(** [login] up to the lookup by email. *)
Lemma login_lookup `{Bcrypt} (req : Request) (w : World) (e p : string) :
  body req !! "email" = Some e -> body req !! "password" = Some p ->
  e <> "" -> p <> "" -> outage w (length (log w)) = false ->
  login req w =
    let w1 := record_op (OpFindUniqueEmail e) w in
    match List.find (db.by_email e) (db.all (users w)) with
    | None => (sendStatus 401, w1)
    | Some u =>
        if bcrypt_compare p (User.password u) then
          let tok := bcrypt_hash (entropy w) (User.id u) 10 in
          let w2 := record_op (OpUpdate (User.id u)) (set_entropy (S (entropy w)) w1) in
          if outage w (S (length (log w))) then (sendStatus 400, w2)
          else
            match users w !! User.id u with
            | None => (sendStatus 400, w2)
            | Some r =>
                (mkResponse 200
                   (JSelected (User.select
                      (User.of_row (User.id u) (User.set_sessionToken tok r))))
                   (Some (mkCookie "EXPRESS-API-AUTH" tok "localhost" "/")),
                 set_users (<[User.id u := User.set_sessionToken tok r]> (users w)) w2)
            end
        else (sendStatus 401, w1)
    end.
Proof.
  intros He Hp He' Hp' Hup. unfold login.
  rewrite He, Hp, !truthy_Some by done. run. rewrite Hup.
  destruct (List.find _ _) as [u|]; [|done]. simpl.
  destruct (bcrypt_compare p (User.password u)); [|done]. simpl.
  destruct (outage w (S (length (log w)))); [done|].
  by destruct (users w !! User.id u).
Qed.

(** A login whose email is the one of the stored record [u] only, and
    whose password verifies against the digest of [u]. *)
Lemma login_ok `{Bcrypt} (req : Request) (w : World) (u : User.t) (e p : string) :
  body req !! "email" = Some e -> body req !! "password" = Some p ->
  e <> "" -> p <> "" ->
  outage w (length (log w)) = false -> outage w (S (length (log w))) = false ->
  stored w u -> User.email u = e ->
  (forall v, stored w v -> User.email v = e -> v = u) ->
  bcrypt_compare p (User.password u) = true ->
  let tok := bcrypt_hash (entropy w) (User.id u) 10 in
  login req w =
    (mkResponse 200
       (JSelected (User.mkSelected (User.id u) (User.email u) (User.username u)
                     (Some tok)))
       (Some (mkCookie "EXPRESS-API-AUTH" tok "localhost" "/")),
     mkWorld (<[User.id u := User.set_sessionToken tok (User.to_row u)]> (users w))
       (ids w) (S (entropy w))
       (OpUpdate (User.id u) :: OpFindUniqueEmail e :: log w) (outage w)).
Proof.
  intros He Hp He' Hp' Hup Hup2 Hu Hue Huniq Hpw tok.
  rewrite (login_lookup req w e p) by done. simpl.
  rewrite (find_email_unique w e u) by done.
  rewrite Hpw, Hup2, Hu. done.
Qed.

(** C4. Login failures: a request in which [email] or [password] is
    missing (absent or empty) is answered 400; a complete request for an
    email that no stored record has is answered 401; a complete request
    for the email of a stored record whose digest the password does not
    verify against is answered 401.  The two 401 outcomes are the same
    response and leave the same world. *)
Theorem login_failure_spec `{Bcrypt} (req : Request) (w : World) :
  let email := body req !! "email" in
  let password := body req !! "password" in
  (truthy email = false \/ truthy password = false ->
     login req w = (sendStatus 400, w)) /\
  (forall e p, email = Some e -> password = Some p -> e <> "" -> p <> "" ->
     outage w (length (log w)) = false ->
     ((forall u, stored w u -> User.email u <> e) ->
        login req w = (sendStatus 401, record_op (OpFindUniqueEmail e) w)) /\
     (forall u, stored w u -> User.email u = e ->
        (forall v, stored w v -> User.email v = e -> v = u) ->
        bcrypt_compare p (User.password u) = false ->
        login req w = (sendStatus 401, record_op (OpFindUniqueEmail e) w))).
Proof.
  intros email password. split; [apply login_guard|].
  intros e p He Hp He' Hp' Hup. rewrite (login_lookup req w e p) by done.
  simpl. split.
  - intros Hnone. by rewrite (find_email_None w e Hnone).
  - intros u Hu Hue Huniq Hpw.
    by rewrite (find_email_unique w e u), Hpw.
Qed.

(** C5. Login success: when the email is the one of the stored record [u]
    and the password verifies, the session token is the digest of the id
    of [u]; it is written to the [sessionToken] of the record of [u],
    whatever that held before; the response has status 200, sets the
    session cookie to the token, and carries the four fields id, email,
    username and sessionToken of the updated record, the last one being
    the cookie value. *)
Theorem login_success_spec `{Bcrypt} (req : Request) (w : World) (u : User.t)
    (e p : string) :
  body req !! "email" = Some e -> body req !! "password" = Some p ->
  e <> "" -> p <> "" ->
  outage w (length (log w)) = false -> outage w (S (length (log w))) = false ->
  stored w u -> User.email u = e ->
  (forall v, stored w v -> User.email v = e -> v = u) ->
  bcrypt_compare p (User.password u) = true ->
  let tok := bcrypt_hash (entropy w) (User.id u) 10 in
  let res := (login req w).1 in
  let w' := (login req w).2 in
  status res = 200 /\
  json res = JSelected (User.mkSelected (User.id u) (User.email u)
                          (User.username u) (Some tok)) /\
  set_cookie res = Some (mkCookie "EXPRESS-API-AUTH" tok "localhost" "/") /\
  users w' !! User.id u = Some (User.set_sessionToken tok (User.to_row u)) /\
  User.sessionToken (User.of_row (User.id u)
                       (User.set_sessionToken tok (User.to_row u))) = Some tok.
Proof.
  intros He Hp He' Hp' Hup Hup2 Hu Hue Huniq Hpw tok res w'.
  subst res w'. rewrite (login_ok req w u e p) by done. simpl.
  repeat split. apply lookup_insert_eq.
Qed.

(** C10. Frame of a successful login: the table after the login differs
    from the table before only in the [sessionToken] of the record of the
    user who logged in; that record keeps its id, username, email,
    password digest and salt, every other record is as before, and no
    record is added or removed. *)
Theorem login_frame `{Bcrypt} (req : Request) (w : World) (u : User.t)
    (e p : string) :
  body req !! "email" = Some e -> body req !! "password" = Some p ->
  e <> "" -> p <> "" ->
  outage w (length (log w)) = false -> outage w (S (length (log w))) = false ->
  stored w u -> User.email u = e ->
  (forall v, stored w v -> User.email v = e -> v = u) ->
  bcrypt_compare p (User.password u) = true ->
  let w' := (login req w).2 in
  (exists tok, stored w'
     (User.mk (User.id u) (User.username u) (User.email u) (User.password u)
        (User.salt u) (Some tok))) /\
  (forall k, k <> User.id u -> users w' !! k = users w !! k) /\
  dom (users w') = dom (users w).
Proof.
  intros He Hp He' Hp' Hup Hup2 Hu Hue Huniq Hpw w'.
  subst w'. rewrite (login_ok req w u e p) by done. simpl.
  split; [|split].
  - eexists. unfold stored. simpl. apply lookup_insert_eq.
  - intros k Hk. by apply lookup_insert_ne.
  - rewrite dom_insert_L. apply subseteq_union_1_L, singleton_subseteq_l.
    by apply elem_of_dom_2 in Hu.
Qed.

(** C6. Login then gate: after a successful login of the stored record
    [u], the response sets a cookie whose value is the stored token; a
    later request carrying that cookie under the name login wrote passes
    the Authentication Gate, and the request that goes on has the updated
    record of [u] as its identity and is otherwise as it came, provided
    the token is the [sessionToken] of no other record.  The gate finds
    the record by one equality lookup and draws no entropy: it does not
    hash again. *)
Theorem login_gate_roundtrip `{Bcrypt, StringFilter} (req : Request) (w : World)
    (u : User.t) (e p : string) :
  body req !! "email" = Some e -> body req !! "password" = Some p ->
  e <> "" -> p <> "" ->
  outage w (length (log w)) = false -> outage w (S (length (log w))) = false ->
  outage w (S (S (length (log w)))) = false ->
  stored w u -> User.email u = e ->
  (forall v, stored w v -> User.email v = e -> v = u) ->
  bcrypt_compare p (User.password u) = true ->
  let tok := bcrypt_hash (entropy w) (User.id u) 10 in
  tok <> "" ->
  (forall v, stored w v -> User.id v <> User.id u -> User.sessionToken v <> Some tok) ->
  let w' := (login req w).2 in
  let u' := User.mk (User.id u) (User.username u) (User.email u) (User.password u)
              (User.salt u) (Some tok) in
  exists c, set_cookie (login req w).1 = Some c /\ c_value c = tok /\
    stored w' u' /\
    forall req2, cookies req2 !! c_name c = Some (JsString (c_value c)) ->
      exists req',
        isAuthenticated req2 w' =
          (Next req', record_op (OpFindFirstToken (Some tok)) w') /\
        identity req' = Some u' /\ cookies req' = cookies req2 /\
        body req' = body req2 /\ params req' = params req2 /\
        entropy (isAuthenticated req2 w').2 = entropy w' /\
        log (isAuthenticated req2 w').2 = OpFindFirstToken (Some tok) :: log w'.
Proof.
  intros He Hp He' Hp' Hup Hup2 Hup3 Hu Hue Huniq Hpw tok Htok Hother w' u'.
  subst w'. rewrite (login_ok req w u e p) by done. fold tok. simpl.
  eexists. split; [done|]. simpl. split; [done|].
  assert (forall m : gmap string User.row,
            <[User.id u := User.set_sessionToken tok (User.to_row u)]> m
              !! User.id u' = Some (User.to_row u')) as Hu'.
  { intros m. apply lookup_insert_eq. }
  split; [apply Hu'|].
  intros req2 Hc. exists (merge_identity req2 u').
  rewrite (isAuthenticated_run req2 _ tok Hc Htok). simpl.
  rewrite Hup3.
  rewrite (find_all_unique (db.by_sessionToken tok) _ u'); [done|apply Hu'| |].
  - by apply bool_decide_eq_true.
  - intros v Hv HP. apply bool_decide_eq_true in HP.
    destruct (decide (User.id v = User.id u)) as [Heq|Hne].
    + rewrite Heq, lookup_insert_eq in Hv. subst u'.
      destruct v, u. unfold User.to_row, User.set_sessionToken in Hv.
      simpl in *. by simplify_eq.
    + rewrite lookup_insert_ne in Hv by done. by destruct (Hother v Hv Hne).
Qed.

(** ** Update and delete *)



(** ** The scenario *)

(** Registration, login, listing, renaming and deleting succeed in turn;
    once the account is deleted its session cookie opens nothing. *)
Example scenario_statuses :
  status <$> scenario = [200; 200; 200; 200; 200; 403].
Proof. vm_compute. reflexivity. Qed.

Example scenario_rename :
  json <$> scenario !! 3 =
    Some (JUser (User.mk "aid" "b" "a@x.com" "0p" None (Some "1aid"))).
Proof. vm_compute. reflexivity. Qed.

(** ** The properties at work on the sample worlds *)

Ltac each_record :=
  refine (stored_forall _ _ _); vm_compute;
  repeat (constructor;
          [cbv beta; first [discriminate | intros _; reflexivity
                           | let E := fresh in intros E; discriminate E]|]);
  constructor.

Lemma isAuthenticated_object_cookie_witness :
  exists u req', stored world2 u /\
    (isAuthenticated (H := sample_filter) (with_json_session (JsObject []))
       world2).1 = Next req' /\
    identity req' = Some u.
Proof.
  apply (proj2 (isAuthenticated_object_cookie (H := sample_filter)
                  (with_json_session (JsObject [])) world2 alice2
                  eq_refl eq_refl eq_refl eq_refl)).
Defined.

Lemma isAuthenticated_spec_witness :
  isAuthenticated (H := sample_filter) (with_session "") world2
    = (Respond (sendStatus 403), world2) /\
  (isAuthenticated (H := sample_filter) (with_session "stale") world2).1
    = Respond (sendStatus 403) /\
  (exists u req', stored world2 u /\ User.sessionToken u = Some "2aid" /\
     (isAuthenticated (H := sample_filter) (with_session "2aid") world2).1
       = Next req' /\
     identity req' = Some u /\ cookies req' = cookies (with_session "2aid") /\
     body req' = body (with_session "2aid") /\
     params req' = params (with_session "2aid")) /\
  (isAuthenticated (H := sample_filter) (with_session "2aid") world_down).1
    = Respond (sendStatus 400).
Proof.
  split; [|split; [|split]].
  - apply (isAuthenticated_spec (H := sample_filter) (with_session "") world2).
    reflexivity.
  - apply (proj1 (proj2 (isAuthenticated_spec (H := sample_filter)
                           (with_session "stale") world2))
             "stale"); [reflexivity|discriminate|reflexivity|each_record].
  - apply (proj1 (proj2 (proj2 (isAuthenticated_spec (H := sample_filter)
                                  (with_session "2aid") world2)))
             "2aid"); [reflexivity|discriminate|reflexivity|].
    exists alice2. split; reflexivity.
  - apply (proj1 (proj2 (proj2 (proj2
             (isAuthenticated_spec (H := sample_filter)
                (with_session "2aid") world_down)))) "2aid");
      [reflexivity|discriminate|reflexivity].
Defined.

Lemma isOwnAccount_spec_witness :
  isOwnAccount (on_own_account []) world2 = (Next (on_own_account []), world2).
Proof.
  apply (proj1 (proj2 (proj2 (proj2
           (isOwnAccount_spec (H := sample_bcrypt) (H0 := sample_ids)
              (H1 := sample_filter)
              DELETE "aid" (delete_route (H := sample_filter))
              (on_own_account []) world2
              (or_intror eq_refl) eq_refl eq_refl)))) alice2);
    reflexivity.
Defined.


Lemma register_conflict_unchanged_witness :
  (register (H := sample_bcrypt) (H0 := sample_ids) register_alice world1).1
    = sendStatus 409 /\
  users (register (H := sample_bcrypt) (H0 := sample_ids) register_alice world1).2
    = users world1.
Proof.
  destruct (register_conflict_unchanged (H := sample_bcrypt) (H0 := sample_ids)
              register_alice world1 alice "a@x.com" "p" "alice")
    as (Hres & Husers & _);
    [reflexivity|reflexivity|reflexivity|reflexivity|reflexivity
    |discriminate|discriminate|discriminate|reflexivity|].
  split; [exact Hres|exact Husers].
Defined.

Lemma login_failure_spec_witness :
  login (H := sample_bcrypt) login_unknown world1
    = (sendStatus 401, record_op (OpFindUniqueEmail "z@x.com") world1) /\
  login (H := sample_bcrypt) login_wrong_password world1
    = (sendStatus 401, record_op (OpFindUniqueEmail "a@x.com") world1).
Proof.
  split.
  - apply (proj1 (proj2 (login_failure_spec (H := sample_bcrypt)
                           login_unknown world1)
                    "z@x.com" "p" eq_refl eq_refl
                    ltac:(discriminate) ltac:(discriminate) eq_refl)).
    each_record.
  - apply (proj2 (proj2 (login_failure_spec (H := sample_bcrypt)
                           login_wrong_password world1)
                    "a@x.com" "guess" eq_refl eq_refl
                    ltac:(discriminate) ltac:(discriminate) eq_refl) alice);
      [reflexivity|reflexivity|each_record|reflexivity].
Defined.

Lemma login_success_spec_witness :
  status (login (H := sample_bcrypt) login_alice world2).1 = 200 /\
  set_cookie (login (H := sample_bcrypt) login_alice world2).1
    = Some (mkCookie "EXPRESS-API-AUTH" "4aid" "localhost" "/") /\
  users (login (H := sample_bcrypt) login_alice world2).2 !! "aid"
    = Some (User.set_sessionToken "4aid" alice_row).
Proof.
  destruct (login_success_spec (H := sample_bcrypt) login_alice world2 alice2
              "a@x.com" "p")
    as (Hst & _ & Hck & Hrow & _);
    [reflexivity|reflexivity|discriminate|discriminate|reflexivity|reflexivity
    |reflexivity|reflexivity|each_record|reflexivity|].
  split; [exact Hst|]. split; [exact Hck|exact Hrow].
Defined.

Lemma login_frame_witness :
  users (login (H := sample_bcrypt) login_alice world2).2 !! "bid"
    = users world2 !! "bid" /\
  dom (users (login (H := sample_bcrypt) login_alice world2).2)
    = dom (users world2).
Proof.
  destruct (login_frame (H := sample_bcrypt) login_alice world2 alice2
              "a@x.com" "p")
    as (_ & Hother & Hdom);
    [reflexivity|reflexivity|discriminate|discriminate|reflexivity|reflexivity
    |reflexivity|reflexivity|each_record|reflexivity|].
  split; [apply Hother; discriminate|exact Hdom].
Defined.

Lemma login_gate_roundtrip_witness :
  exists req',
    (isAuthenticated (H := sample_filter) (with_session "4aid")
       (login (H := sample_bcrypt) login_alice world2).2).1 = Next req' /\
    identity req'
      = Some (User.of_row "aid" (User.set_sessionToken "4aid" alice_row)).
Proof.
  destruct (login_gate_roundtrip (H := sample_bcrypt) (H0 := sample_filter)
              login_alice world2 alice2 "a@x.com" "p")
    as (c & Hc & Hval & _ & Hgate);
    [reflexivity|reflexivity|discriminate|discriminate|reflexivity|reflexivity
    |reflexivity|reflexivity|reflexivity|each_record|reflexivity
    |vm_compute; discriminate|each_record|].
  vm_compute in Hc. injection Hc as <-.
  destruct (Hgate (with_session "4aid") eq_refl) as (req' & Hrun & Hid & _).
  exists req'. split; [exact (f_equal fst Hrun)|exact Hid].
Defined.



(** * Further properties of the handlers and of the route table *)

(** ** The route table *)

Lemma route_routed `{Bcrypt, IdGen, StringFilter} (m : Method) (path : list string) (r : Route) :
  route m path = Some r -> routed m path r.
Proof.
  unfold route. intros Hr.
  repeat (case_match; try discriminate).
  all: simplify_eq; try (constructor; by eapply bool_decide_eq_false_1).
  all: by constructor.
Qed.

Lemma app_unrouted `{Bcrypt, IdGen, StringFilter} (m : Method) (path : list string)
    (req : Request) (w : World) :
  route m path = None -> app m path req w = (sendStatus 404, w).
Proof. intros Hr. unfold app. by rewrite Hr. Qed.

(** The two gates of the [:id] routes, then the handler. *)
Lemma run_gated `{StringFilter} (h : Handler) (req : Request) (w : World) :
  run_chain [isAuthenticated; isOwnAccount] h req w =
    match isAuthenticated req w with
    | (Next req1, w1) =>
        match isOwnAccount req1 w1 with
        | (Next req2, w2) => h req2 w2
        | (Respond res, w2) => (res, w2)
        end
    | (Respond res, w1) => (res, w1)
    end.
Proof. reflexivity. Qed.

(** ** What the gates let through *)

(** X1. The Authentication Gate hands a request on only with a truthy
    cookie, and then with a stored record as the identity of the request,
    which is otherwise as it came; when the cookie is a string, it is the
    [sessionToken] of that record. *)
Theorem isAuthenticated_sound `{StringFilter} (req req' : Request) (w : World) :
  (isAuthenticated req w).1 = Next req' ->
  js_truthy (cookies req !! "EXPRESS-API-AUTH") = true /\
  exists u, stored w u /\ identity req' = Some u /\
    cookies req' = cookies req /\ body req' = body req /\
    params req' = params req /\
    forall tok, cookies req !! "EXPRESS-API-AUTH" = Some (JsString tok) ->
      tok <> "" /\ User.sessionToken u = Some tok.
Proof.
  intros Hnext.
  destruct (isAuthenticated_cases req w)
    as [Hr | [Hr | (Hc & op & [Hr | [Hr | (u & Hu & Hut & Hr)]])]];
    rewrite Hr in Hnext; simpl in Hnext; try discriminate.
  injection Hnext as <-. split; [done|]. by exists u.
Qed.

(** X2. The Ownership Gate lets a request through only when it carries
    an identity whose non-empty id is the route parameter; the request
    goes on as it came. *)
Theorem isOwnAccount_sound (req req' : Request) (w : World) :
  (isOwnAccount req w).1 = Next req' ->
  req' = req /\
  exists u, identity req = Some u /\ User.id u <> "" /\
    params req !! "id" = Some (User.id u).
Proof.
  rewrite isOwnAccount_run. intros Hnext.
  destruct (identity req) as [u|]; [|discriminate].
  case_bool_decide as Hid; [discriminate|].
  case_bool_decide as Hp; [|discriminate].
  injection Hnext as <-. split; [done|]. by exists u.
Qed.

(** ** What each handler does to the table *)

(** [register] either answers 400 or 409 and leaves the table alone, or
    inserts one row under an id that was free, for an email that was
    free. *)
Lemma register_effect `{Bcrypt, IdGen} (req : Request) (w : World) :
  (users (register req w).2 = users w /\
   ((register req w).1 = sendStatus 400 \/ (register req w).1 = sendStatus 409)) \/
  (exists i r, users w !! i = None /\
     (forall u, stored w u -> User.email u <> User.r_email r) /\
     User.r_sessionToken r = None /\
     users (register req w).2 = <[i := r]> (users w) /\
     (register req w).1 = status_json 200 (JUser (User.of_row i r))).
Proof.
  unfold register.
  destruct (truthy (body req !! "email")) eqn:He; [|left; by eauto].
  destruct (truthy (body req !! "password")) eqn:Hp; [|left; by eauto].
  destruct (truthy (body req !! "username")) eqn:Hn; [|left; by eauto].
  apply truthy_inv in He as (e & -> & _). apply truthy_inv in Hp as (p & -> & _).
  apply truthy_inv in Hn as (n & -> & _). run.
  destruct (outage w (length (log w))); [left; by eauto|].
  destruct (List.find (db.by_email e) _) eqn:Hf; [left; by eauto|]. simpl.
  destruct (outage w (S (length (log w)))); [left; by eauto|].
  destruct (users w !! cuid (ids w)) eqn:Hi; [left; by eauto|].
  rewrite Hf. right.
  exists (cuid (ids w)), (User.mkRow n e (bcrypt_hash (entropy w) p 10) None None).
  split; [exact Hi|]. split; [|done].
  intros u Hu Hue. pose proof (find_all_None _ _ Hf u Hu) as HP.
  by apply bool_decide_eq_false in HP.
Qed.

(** [login] either answers 400 or 401 without a cookie and leaves the
    table alone, or writes a token to the record it found and answers 200
    with that token as cookie. *)
Lemma login_effect `{Bcrypt} (req : Request) (w : World) :
  (users (login req w).2 = users w /\
   ((login req w).1 = sendStatus 400 \/ (login req w).1 = sendStatus 401)) \/
  (exists u tok, stored w u /\
     users (login req w).2
       = <[User.id u := User.set_sessionToken tok (User.to_row u)]> (users w) /\
     (login req w).1
       = mkResponse 200
           (JSelected (User.mkSelected (User.id u) (User.email u)
                         (User.username u) (Some tok)))
           (Some (mkCookie "EXPRESS-API-AUTH" tok "localhost" "/"))).
Proof.
  destruct (truthy (body req !! "email")) eqn:He;
    [|left; rewrite login_guard by eauto; by eauto].
  destruct (truthy (body req !! "password")) eqn:Hp;
    [|left; rewrite login_guard by eauto; by eauto].
  apply truthy_inv in He as (e & He & He'). apply truthy_inv in Hp as (p & Hp & Hp').
  destruct (outage w (length (log w))) eqn:Hup.
  { left. unfold login. rewrite He, Hp, !truthy_Some by done. run.
    rewrite Hup. by eauto. }
  rewrite (login_lookup req w e p) by done. simpl.
  destruct (List.find _ _) as [u|] eqn:Hf; [|left; by eauto].
  apply find_all_Some in Hf as [Hu _].
  destruct (bcrypt_compare p (User.password u)); [|left; by eauto].
  destruct (outage w (S (length (log w)))); [left; by eauto|].
  rewrite Hu. right. by exists u, (bcrypt_hash (entropy w) (User.id u) 10).
Qed.

(** [getAllUsers] never touches the table. *)
Lemma getAllUsers_effect (req : Request) (w : World) :
  users (getAllUsers req w).2 = users w /\
  ((getAllUsers req w).1 = sendStatus 400 \/
   (getAllUsers req w).1 = status_json 200 (JUsers (db.all (users w)))).
Proof.
  unfold getAllUsers. run. destruct (outage w (length (log w))); by eauto.
Qed.

(** [deleteUser] either answers 400 and leaves the table alone, or
    removes the row of the route parameter. *)
Lemma deleteUser_effect (req : Request) (w : World) :
  (users (deleteUser req w).2 = users w /\ (deleteUser req w).1 = sendStatus 400) \/
  (exists i r, params req !! "id" = Some i /\ users w !! i = Some r /\
     users (deleteUser req w).2 = delete i (users w) /\
     (deleteUser req w).1 = status_json 200 (JUser (User.of_row i r))).
Proof.
  unfold deleteUser. destruct (params req !! "id") as [i|] eqn:Hi; [|left; by eauto].
  run. destruct (outage w (length (log w))); [left; by eauto|].
  destruct (users w !! i) as [r|] eqn:Hr; [|left; by eauto].
  right. by exists i, r.
Qed.

(** [updateUser] either answers 400 and leaves the table alone, or
    rewrites the username of the row of the route parameter. *)
Lemma updateUser_effect (req : Request) (w : World) :
  (users (updateUser req w).2 = users w /\ (updateUser req w).1 = sendStatus 400) \/
  (exists i n r, params req !! "id" = Some i /\ users w !! i = Some r /\
     body req !! "username" = Some n /\ n <> "" /\
     users (updateUser req w).2 = <[i := User.set_username (Some n) r]> (users w) /\
     (updateUser req w).1
       = status_json 200 (JUser (User.of_row i (User.set_username (Some n) r)))).
Proof.
  unfold updateUser.
  destruct (truthy (body req !! "username")) eqn:Hn; [|left; by eauto].
  apply truthy_inv in Hn as (n & Hn & Hn'). rewrite Hn.
  destruct (params req !! "id") as [i|] eqn:Hi; [|left; by eauto].
  run. destruct (outage w (length (log w))); [left; by eauto|].
  destruct (users w !! i) as [r|] eqn:Hr; [|left; by eauto]. simpl.
  destruct (outage w (S (length (log w)))); [left; by eauto|].
  rewrite Hr. right. by exists i, n, r.
Qed.

(** The Ownership Gate either refuses or hands the request on; the world
    is the one it was given. *)
Lemma isOwnAccount_cases (req : Request) (w : World) :
  isOwnAccount req w = (Respond (sendStatus 403), w) \/
  (isOwnAccount req w = (Next req, w) /\
   exists u, identity req = Some u /\ params req !! "id" = Some (User.id u)).
Proof.
  rewrite isOwnAccount_run. destruct (identity req) as [u|]; [|by left].
  case_bool_decide; [by left|]. case_bool_decide; [|by left].
  right. split; [done|]. by exists u.
Qed.

(** ** One request, one step of the table *)

Lemma app_served `{Bcrypt, IdGen, StringFilter} (m : Method) (path : list string)
    (req : Request) (w : World) :
  served m path w (app m path req w).1 (users (app m path req w).2).
Proof.
  unfold app. destruct (route m path) as [r|] eqn:Hr; [|by constructor].
  assert (is_Some (route m path)) as Hsome by (by rewrite Hr).
  apply route_routed in Hr. destruct Hr as [| | |i Hi|i Hi]; simpl.
  - destruct (register_effect (with_params ∅ req) w)
      as [[-> [-> | ->]] | (i & r & Hi & Hfree & _ & -> & ->)].
    + apply served_refused; eauto.
    + apply served_refused; eauto 10.
    + apply served_register; try done.
      intros j s Hj. apply (Hfree (User.of_row j s)). by apply stored_of_row.
  - destruct (login_effect (with_params ∅ req) w)
      as [[-> [-> | ->]] | (u & tok & Hu & -> & ->)].
    + apply served_refused; eauto.
    + apply served_refused; eauto.
    + by apply (served_login _ _ _ (User.id u) (User.to_row u) tok).
  - destruct (isAuthenticated_cases (with_params ∅ req) w)
      as [-> | [-> | (_ & op & [-> | [-> | (u & _ & _ & ->)]])]]; simpl;
      try (apply served_refused; eauto 10).
    destruct (getAllUsers_effect (merge_identity (with_params ∅ req) u)
                (record_op op w)) as [-> [-> | ->]];
      simpl.
    + apply served_refused; eauto.
    + by apply served_list.
  - destruct (isAuthenticated_cases (with_params {["id" := i]} req) w)
      as [-> | [-> | (_ & op & [-> | [-> | (u & _ & _ & ->)]])]]; simpl;
      try (apply served_refused; eauto 10).
    destruct (isOwnAccount_cases
                (merge_identity (with_params {["id" := i]} req) u)
                (record_op op w)) as [-> | [-> _]];
      simpl; [apply served_refused; eauto 10|].
    destruct (deleteUser_effect
                (merge_identity (with_params {["id" := i]} req) u)
                (record_op op w))
      as [[-> ->] | (k & r & Hk & Hr & -> & ->)]; simpl.
    + apply served_refused; eauto.
    + simpl in Hk. rewrite lookup_singleton_eq in Hk. injection Hk as <-.
      by apply served_delete.
  - destruct (isAuthenticated_cases (with_params {["id" := i]} req) w)
      as [-> | [-> | (_ & op & [-> | [-> | (u & _ & _ & ->)]])]]; simpl;
      try (apply served_refused; eauto 10).
    destruct (isOwnAccount_cases
                (merge_identity (with_params {["id" := i]} req) u)
                (record_op op w)) as [-> | [-> _]];
      simpl; [apply served_refused; eauto 10|].
    destruct (updateUser_effect
                (merge_identity (with_params {["id" := i]} req) u)
                (record_op op w))
      as [[-> ->] | (k & n & r & Hk & Hr & _ & _ & -> & ->)]; simpl.
    + apply served_refused; eauto.
    + simpl in Hk. rewrite lookup_singleton_eq in Hk. injection Hk as <-.
      by apply served_patch.
Qed.

(** X3. A request that is not answered 200 leaves the table exactly as it
    was, whatever the route and whatever failed on the way. *)
Theorem failure_leaves_table `{Bcrypt, IdGen, StringFilter} (m : Method) (path : list string)
    (req : Request) (w : World) :
  status (app m path req w).1 <> 200 ->
  users (app m path req w).2 = users w.
Proof.
  intros Hst. pose proof (app_served m path req w) as Hs.
  destruct Hs; simpl in Hst; done.
Qed.

(** X4. The only response that sets a cookie is a successful login: it
    has status 200, the cookie is named [EXPRESS-API-AUTH], and its value
    is the [sessionToken] of a record of the table as the request leaves
    it. *)
Theorem cookie_only_on_login `{Bcrypt, IdGen, StringFilter} (m : Method) (path : list string)
    (req : Request) (w : World) (c : Cookie) :
  set_cookie (app m path req w).1 = Some c ->
  m = POST /\ path = ["auth"; "login"] /\
  status (app m path req w).1 = 200 /\
  c_name c = "EXPRESS-API-AUTH" /\
  exists i r, users (app m path req w).2 !! i = Some r /\
    User.r_sessionToken r = Some (c_value c).
Proof.
  intros Hc. pose proof (app_served m path req w) as Hs.
  destruct Hs; simpl in Hc; try discriminate.
  injection Hc as <-. repeat split; try done.
  eexists _, _. split; [apply lookup_insert_eq|done].
Qed.

(** X5. A request that matches a route is answered 200, 400, 401, 403 or
    409: every exception is caught and answered 400, and no handler
    answers 404 or 500. *)
Theorem routed_statuses `{Bcrypt, IdGen, StringFilter} (m : Method) (path : list string)
    (req : Request) (w : World) :
  is_Some (route m path) ->
  handler_status (status (app m path req w).1).
Proof.
  intros [r Hr]. pose proof (app_served m path req w) as Hs.
  unfold handler_status. destruct Hs; simpl; eauto 10; congruence.
Qed.

(** X6. A request rewrites, adds or removes at most one row of the
    table: all rows but one are as before. *)
Theorem one_row_per_request `{Bcrypt, IdGen, StringFilter} (m : Method) (path : list string)
    (req : Request) (w : World) :
  exists i, forall j, j <> i ->
    users (app m path req w).2 !! j = users w !! j.
Proof.
  pose proof (app_served m path req w) as Hs.
  destruct Hs; try (by exists ""); exists i; intros j Hj;
    by rewrite ?lookup_insert_ne, ?lookup_delete_ne.
Qed.

(** ** Unique emails *)

Lemma emails_unique_rewrite (m : gmap string User.row) (i : string)
    (r r' : User.row) :
  m !! i = Some r -> User.r_email r' = User.r_email r ->
  emails_unique m -> emails_unique (<[i := r']> m).
Proof.
  intros Hi He Hu j k s t Hj Hk Hst.
  destruct (decide (j = i)) as [->|Hji], (decide (k = i)) as [->|Hki]; [done| | |].
  - rewrite lookup_insert_eq in Hj. rewrite lookup_insert_ne in Hk by done.
    injection Hj as <-. apply (Hu i k r t); congruence.
  - rewrite lookup_insert_eq in Hk. rewrite lookup_insert_ne in Hj by done.
    injection Hk as <-. apply (Hu j i s r); congruence.
  - rewrite lookup_insert_ne in Hj, Hk by done. by apply (Hu j k s t).
Qed.

Lemma emails_unique_insert (m : gmap string User.row) (i : string) (r : User.row) :
  (forall j s, m !! j = Some s -> User.r_email s <> User.r_email r) ->
  emails_unique m -> emails_unique (<[i := r]> m).
Proof.
  intros Hfree Hu j k s t Hj Hk Hst.
  destruct (decide (j = i)) as [->|Hji], (decide (k = i)) as [->|Hki]; [done| | |].
  - rewrite lookup_insert_eq in Hj. rewrite lookup_insert_ne in Hk by done.
    injection Hj as <-. by destruct (Hfree k t Hk).
  - rewrite lookup_insert_eq in Hk. rewrite lookup_insert_ne in Hj by done.
    injection Hk as <-. by destruct (Hfree j s Hj).
  - rewrite lookup_insert_ne in Hj, Hk by done. by apply (Hu j k s t).
Qed.

Lemma emails_unique_delete (m : gmap string User.row) (i : string) :
  emails_unique m -> emails_unique (delete i m).
Proof.
  intros Hu j k s t Hj Hk. apply lookup_delete_Some in Hj as [_ Hj].
  apply lookup_delete_Some in Hk as [_ Hk]. by apply (Hu j k s t).
Qed.

(** X7. No request makes two records share an email: when the emails of
    the table are pairwise distinct before a request, they are so after
    it, on every route and in every outcome.  The lookup by email in
    [register] is what keeps [create] from adding a second one. *)
Theorem app_keeps_emails_unique `{Bcrypt, IdGen, StringFilter} (m : Method) (path : list string)
    (req : Request) (w : World) :
  emails_unique (users w) ->
  emails_unique (users (app m path req w).2).
Proof.
  intros Hu. pose proof (app_served m path req w) as Hs.
  destruct Hs as [| | |i r _ _ _ Hfree|i r tok _ _ Hi|i r n _ _ Hi|i r _ _ _];
    try done.
  - by apply emails_unique_insert.
  - by apply (emails_unique_rewrite _ i r).
  - by apply (emails_unique_rewrite _ i r).
  - by apply emails_unique_delete.
Qed.

(** ** Listing *)



(** X9. [GET /users] answers 200 only for a request with a truthy cookie
    that the gate resolved to a stored record, which holds the cookie as
    its [sessionToken] when the cookie is a string; the body then holds
    exactly the stored records. *)
Theorem list_requires_session `{Bcrypt, IdGen, StringFilter} (req : Request)
    (w : World) :
  status (app GET ["users"] req w).1 = 200 ->
  (exists l, json (app GET ["users"] req w).1 = JUsers l /\
     forall u, u ∈ l <-> stored w u) /\
  js_truthy (cookies req !! "EXPRESS-API-AUTH") = true /\
  exists u, stored w u /\
    forall tok, cookies req !! "EXPRESS-API-AUTH" = Some (JsString tok) ->
      tok <> "" /\ User.sessionToken u = Some tok.
Proof.
  unfold app. simpl.
  destruct (isAuthenticated_cases (with_params ∅ req) w)
    as [-> | [-> | (Hc & op & [-> | [-> | (u & Hu & Hut & ->)]])]];
    simpl; try discriminate.
  destruct (getAllUsers_effect (merge_identity (with_params ∅ req) u)
              (record_op op w)) as [_ [-> | ->]];
    simpl; [discriminate|].
  intros _. split; [|split; [done|by exists u]].
  exists (db.all (users w)). split; [done|]. intros v. apply elem_of_all.
Qed.

(** ** Ownership *)

Lemma app_users_id `{Bcrypt, IdGen, StringFilter} (m : Method) (i : string) (h : Handler)
    (req : Request) (w : World) :
  i <> "" -> (m = PATCH /\ h = updateUser) \/ (m = DELETE /\ h = deleteUser) ->
  app m ["users"; i] req w =
    run_chain [isAuthenticated; isOwnAccount] h (with_params {["id" := i]} req) w.
Proof.
  intros Hi [[-> ->] | [-> ->]]; unfold app; simpl;
    by rewrite bool_decide_eq_false_2.
Qed.

Lemma app_users_empty `{Bcrypt, IdGen, StringFilter} (m : Method) (req : Request) (w : World) :
  m = PATCH \/ m = DELETE -> app m ["users"; ""] req w = (sendStatus 404, w).
Proof. by intros [-> | ->]. Qed.

(** X10. [PATCH] and [DELETE /users/:id] change the table, or answer 200,
    only for a request with a truthy cookie and a stored record under the
    id of the route; when the cookie is a string, it is the
    [sessionToken] of that very record: with the cookie that [login]
    sets, nobody updates or deletes another account. *)
Theorem mutation_requires_owner `{Bcrypt, IdGen, StringFilter} (m : Method)
    (i : string) (req : Request) (w : World) :
  m = PATCH \/ m = DELETE ->
  status (app m ["users"; i] req w).1 = 200 \/
    users (app m ["users"; i] req w).2 <> users w ->
  js_truthy (cookies req !! "EXPRESS-API-AUTH") = true /\
  exists r, users w !! i = Some r /\
    forall tok, cookies req !! "EXPRESS-API-AUTH" = Some (JsString tok) ->
      tok <> "" /\ User.r_sessionToken r = Some tok.
Proof.
  intros Hm Hdone. destruct (decide (i = "")) as [->|Hi].
  { rewrite app_users_empty in Hdone by done. by destruct Hdone. }
  assert (exists h, app m ["users"; i] req w =
            run_chain [isAuthenticated; isOwnAccount] h
              (with_params {["id" := i]} req) w) as [h Happ].
  { destruct Hm as [-> | ->]; eexists; apply app_users_id; eauto. }
  rewrite Happ, run_gated in Hdone.
  destruct (isAuthenticated_cases (with_params {["id" := i]} req) w)
    as [Hr | [Hr | (Hc & op & [Hr | [Hr | (u & Hu & Hut & Hr)]])]];
    rewrite Hr in Hdone; simpl in Hdone; try (by destruct Hdone).
  destruct (isOwnAccount_cases (merge_identity (with_params {["id" := i]} req) u)
              (record_op op w))
    as [Ho | [Ho (v & Hv & Hp)]]; rewrite Ho in Hdone; simpl in Hdone;
    [by destruct Hdone|].
  simpl in Hv, Hp. injection Hv as <-.
  rewrite lookup_singleton_eq in Hp. injection Hp as ->.
  split; [done|]. exists (User.to_row u). split; [done|].
  intros tok Htok. destruct (Hut tok Htok) as [Hne Hst]. split; [done|].
  by destruct u.
Qed.

(** The gate on a cookie that one record only holds. *)
Lemma isAuthenticated_pass `{StringFilter} (req : Request) (w : World) (u : User.t) (tok : string) :
  cookies req !! "EXPRESS-API-AUTH" = Some (JsString tok) -> tok <> "" ->
  outage w (length (log w)) = false ->
  stored w u -> User.sessionToken u = Some tok ->
  (forall v, stored w v -> User.sessionToken v = Some tok -> v = u) ->
  isAuthenticated req w =
    (Next (merge_identity req u), record_op (OpFindFirstToken (Some tok)) w).
Proof.
  intros Hc Htok Hup Hu Hut Huniq.
  rewrite (isAuthenticated_run req w tok Hc Htok), Hup.
  rewrite (find_all_unique (db.by_sessionToken tok) (users w) u); [done|done| |].
  - by apply bool_decide_eq_true.
  - intros v Hv HP. apply bool_decide_eq_true in HP. by apply Huniq.
Qed.

(** X11. A logged-in user who addresses another account is refused: with
    the session cookie of [u] and a route parameter other than the id of
    [u], [PATCH] and [DELETE /users/:id] answer 403 after the one lookup
    of the gate, and the table is untouched. *)
Theorem other_account_forbidden `{Bcrypt, IdGen, StringFilter} (m : Method) (i : string)
    (req : Request) (w : World) (u : User.t) (tok : string) :
  m = PATCH \/ m = DELETE -> i <> "" ->
  cookies req !! "EXPRESS-API-AUTH" = Some (JsString tok) -> tok <> "" ->
  outage w (length (log w)) = false ->
  stored w u -> User.sessionToken u = Some tok ->
  (forall v, stored w v -> User.sessionToken v = Some tok -> v = u) ->
  User.id u <> i ->
  app m ["users"; i] req w =
    (sendStatus 403, record_op (OpFindFirstToken (Some tok)) w).
Proof.
  intros Hm Hi Hc Htok Hup Hu Hut Huniq Hne.
  assert (exists h, app m ["users"; i] req w =
            run_chain [isAuthenticated; isOwnAccount] h
              (with_params {["id" := i]} req) w) as [h ->].
  { destruct Hm as [-> | ->]; eexists; apply app_users_id; eauto. }
  rewrite run_gated.
  rewrite (isAuthenticated_pass (with_params {["id" := i]} req) w u tok) by done.
  rewrite isOwnAccount_run. simpl. case_bool_decide; [done|].
  rewrite lookup_singleton_eq. rewrite bool_decide_eq_false_2; [done|].
  intros [= Heq]. by apply Hne.
Qed.



(** ** How the operations compose *)

(** X14. [register] never rewrites or removes an account: whatever the
    request and the outcome, every record stored before is stored,
    unchanged, after. *)
Theorem register_keeps_records `{Bcrypt, IdGen} (req : Request) (w : World)
    (u : User.t) :
  stored w u -> stored (register req w).2 u.
Proof.
  intros Hu. unfold stored.
  destruct (register_effect req w) as [[-> _] | (i & r & Hi & _ & _ & -> & _)];
    [done|].
  rewrite lookup_insert_ne; [done|]. intros ->. unfold stored in Hu. congruence.
Qed.

(** A complete registration for a free email, under a free id. *)
Lemma register_ok `{Bcrypt, IdGen} (req : Request) (w : World) (e p n : string) :
  body req !! "email" = Some e -> body req !! "password" = Some p ->
  body req !! "username" = Some n -> e <> "" -> p <> "" -> n <> "" ->
  outage w (length (log w)) = false -> outage w (S (length (log w))) = false ->
  (forall u, stored w u -> User.email u <> e) ->
  users w !! cuid (ids w) = None ->
  let r := User.mkRow n e (bcrypt_hash (entropy w) p 10) None None in
  register req w =
    (status_json 200 (JUser (User.of_row (cuid (ids w)) r)),
     mkWorld (<[cuid (ids w) := r]> (users w)) (S (ids w)) (S (entropy w))
       (OpCreate e :: OpFindUniqueEmail e :: log w) (outage w)).
Proof.
  intros He Hp Hn He' Hp' Hn' Hup Hup2 Hfree Hid r. unfold register.
  rewrite He, Hp, Hn, !truthy_Some by done. run. rewrite Hup.
  rewrite (find_email_None w e Hfree). simpl. rewrite Hup2, Hid.
  by rewrite (find_email_None w e Hfree).
Qed.

(** X15. Who registered can log in: after a successful registration, a
    login with the same email and password succeeds, provided the digest
    that was stored verifies the password it was made from.  The session
    token is the digest of the generated id, set as cookie and stored on
    the new record. *)
Theorem register_then_login `{Bcrypt, IdGen} (req req2 : Request) (w : World)
    (e p n : string) :
  body req !! "email" = Some e -> body req !! "password" = Some p ->
  body req !! "username" = Some n -> e <> "" -> p <> "" -> n <> "" ->
  body req2 !! "email" = Some e -> body req2 !! "password" = Some p ->
  outage w (length (log w)) = false ->
  outage w (S (length (log w))) = false ->
  outage w (S (S (length (log w)))) = false ->
  outage w (S (S (S (length (log w))))) = false ->
  (forall u, stored w u -> User.email u <> e) ->
  users w !! cuid (ids w) = None ->
  bcrypt_compare p (bcrypt_hash (entropy w) p 10) = true ->
  let w1 := (register req w).2 in
  let tok := bcrypt_hash (S (entropy w)) (cuid (ids w)) 10 in
  status (login req2 w1).1 = 200 /\
  set_cookie (login req2 w1).1
    = Some (mkCookie "EXPRESS-API-AUTH" tok "localhost" "/") /\
  users (login req2 w1).2 !! cuid (ids w)
    = Some (User.mkRow n e (bcrypt_hash (entropy w) p 10) None (Some tok)).
Proof.
  intros He Hp Hn He' Hp' Hn' He2 Hp2 Hup Hup2 Hup3 Hup4 Hfree Hid Hpw w1 tok.
  subst w1. rewrite (register_ok req w e p n) by done. simpl.
  set (r := User.mkRow n e (bcrypt_hash (entropy w) p 10) None None).
  set (w1 := mkWorld _ _ _ _ _).
  rewrite (login_ok req2 w1 (User.of_row (cuid (ids w)) r) e p); try done.
  - simpl. repeat split. apply lookup_insert_eq.
  - unfold stored. simpl. apply lookup_insert_eq.
  - intros v Hv Hve. unfold stored in Hv. simpl in Hv.
    destruct (decide (User.id v = cuid (ids w))) as [Heq|Hne].
    + rewrite Heq, lookup_insert_eq in Hv. apply (inj Some) in Hv.
      rewrite <- (of_row_to_row v), Heq, <- Hv. done.
    + rewrite lookup_insert_ne in Hv by done. by destruct (Hfree v Hv).
Qed.

(** X16. A new login revokes the previous session: once a login has
    replaced the token of [u] by a different one, a cookie holding the
    old token never passes the Authentication Gate, as long as no other
    record holds that token. *)
Theorem relogin_revokes_old_cookie `{Bcrypt, StringFilter} (req req2 req' : Request) (w : World)
    (u : User.t) (e p old : string) :
  body req !! "email" = Some e -> body req !! "password" = Some p ->
  e <> "" -> p <> "" ->
  outage w (length (log w)) = false -> outage w (S (length (log w))) = false ->
  stored w u -> User.email u = e ->
  (forall v, stored w v -> User.email v = e -> v = u) ->
  bcrypt_compare p (User.password u) = true ->
  bcrypt_hash (entropy w) (User.id u) 10 <> old ->
  (forall v, stored w v -> User.id v <> User.id u ->
     User.sessionToken v <> Some old) ->
  cookies req2 !! "EXPRESS-API-AUTH" = Some (JsString old) ->
  (isAuthenticated req2 (login req w).2).1 <> Next req'.
Proof.
  intros He Hp He' Hp' Hup Hup2 Hu Hue Huniq Hpw Hnew Hother Hc Hnext.
  rewrite (login_ok req w u e p) in Hnext by done. simpl in Hnext.
  match type of Hnext with
  | (isAuthenticated _ ?x).1 = _ => set (w1 := x) in *
  end.
  destruct (isAuthenticated_cases req2 w1)
    as [Hr | [Hr | (_ & op & [Hr | [Hr | (v & Hv & Hvt & Hr)]])]];
    rewrite Hr in Hnext; simpl in Hnext; try discriminate.
  destruct (Hvt old Hc) as [_ Hvt'].
  unfold stored in Hv. simpl in Hv.
  destruct (decide (User.id v = User.id u)) as [Heq|Hne].
  - rewrite Heq, lookup_insert_eq in Hv. apply (inj Some) in Hv.
    apply (f_equal User.r_sessionToken) in Hv. simpl in Hv.
    rewrite Hvt' in Hv. apply (inj Some) in Hv. by apply Hnew.
  - rewrite lookup_insert_ne in Hv by done. by destruct (Hother v Hv Hne).
Qed.

(** X17. Deleting an account ends its session: after [deleteUser]
    answered 200 for the id [i], a cookie whose token no other record
    holds never passes the Authentication Gate. *)
Theorem delete_revokes_session `{StringFilter} (req req2 req' : Request) (w : World)
    (i tok : string) :
  params req !! "id" = Some i ->
  status (deleteUser req w).1 = 200 ->
  (forall v, stored w v -> User.id v <> i -> User.sessionToken v <> Some tok) ->
  cookies req2 !! "EXPRESS-API-AUTH" = Some (JsString tok) ->
  (isAuthenticated req2 (deleteUser req w).2).1 <> Next req'.
Proof.
  intros Hi Hst Hother Hc Hnext.
  destruct (isAuthenticated_cases req2 (deleteUser req w).2)
    as [Hr | [Hr | (_ & op & [Hr | [Hr | (v & Hv & Hvt & Hr)]])]];
    rewrite Hr in Hnext; simpl in Hnext; try discriminate.
  destruct (Hvt tok Hc) as [_ Hvt']. unfold stored in Hv.
  destruct (deleteUser_effect req w) as [[_ Hres] | (k & r & Hk & _ & Hdel & _)].
  { rewrite Hres in Hst. discriminate. }
  rewrite Hi in Hk. injection Hk as <-. rewrite Hdel in Hv.
  apply lookup_delete_Some in Hv as [Hne Hv].
  apply (Hother v Hv); [by intros Heq; apply Hne|done].
Qed.

(** X18. Renaming keeps the session: whatever [updateUser] did, the
    cookie of [u] still passes the Authentication Gate afterwards, and
    the identity of the request that goes on is the record of [u] with
    the same id, email and token. *)
Theorem rename_keeps_session `{StringFilter} (req req2 : Request) (w : World) (u : User.t)
    (tok : string) :
  stored w u -> User.sessionToken u = Some tok -> tok <> "" ->
  (forall v, stored w v -> User.sessionToken v = Some tok -> v = u) ->
  cookies req2 !! "EXPRESS-API-AUTH" = Some (JsString tok) ->
  let w' := (updateUser req w).2 in
  outage w' (length (log w')) = false ->
  exists u', (isAuthenticated req2 w').1 = Next (merge_identity req2 u') /\
    identity (merge_identity req2 u') = Some u' /\
    User.id u' = User.id u /\ User.email u' = User.email u /\
    User.sessionToken u' = Some tok.
Proof.
  intros Hu Hut Htok Huniq Hc w' Hup.
  assert (exists u', stored w' u' /\ User.id u' = User.id u /\
            User.email u' = User.email u /\ User.sessionToken u' = Some tok /\
            forall v, stored w' v -> User.sessionToken v = Some tok -> v = u')
    as (u' & Hu' & Hid & Hem & Hut' & Huniq').
  { subst w'. unfold stored in *.
    destruct (updateUser_effect req w)
      as [[-> _] | (i & n & r & _ & Hr & _ & _ & -> & _)].
    { exists u. by repeat split. }
    assert (forall v, (<[i := User.set_username (Some n) r]> (users w))
                        !! User.id v = Some (User.to_row v) ->
              User.sessionToken v = Some tok -> User.id v = User.id u) as Hsame.
    { intros v Hv Hvt. destruct (decide (User.id v = i)) as [Heq|Hne].
      - rewrite Heq, lookup_insert_eq in Hv. apply (inj Some) in Hv.
        apply (f_equal User.r_sessionToken) in Hv. simpl in Hv.
        assert (User.of_row i r = u) as Hru.
        { apply Huniq; [by rewrite to_row_of_row|]. simpl. congruence. }
        rewrite Heq. by rewrite <- Hru.
      - rewrite lookup_insert_ne in Hv by done. by rewrite (Huniq v Hv Hvt). }
    destruct (decide (User.id u = i)) as [Heq|Hne].
    - exists (User.of_row i (User.set_username (Some n) r)).
      subst i. assert (r = User.to_row u) as -> by congruence.
      split; [by rewrite lookup_insert_eq, to_row_of_row|].
      repeat split; try done.
      intros v Hv Hvt. pose proof (Hsame v Hv Hvt) as Hidv.
      rewrite Hidv, lookup_insert_eq in Hv. apply (inj Some) in Hv.
      rewrite <- (of_row_to_row v), Hidv, <- Hv. done.
    - exists u. split; [by rewrite lookup_insert_ne|]. repeat split; try done.
      intros v Hv Hvt. pose proof (Hsame v Hv Hvt) as Hidv.
      rewrite Hidv, lookup_insert_ne in Hv by done.
      assert (User.to_row v = User.to_row u) as Hrow by congruence.
      rewrite <- (of_row_to_row v), Hidv, Hrow. apply of_row_to_row. }
  exists u'. split; [|done].
  by rewrite (isAuthenticated_pass req2 w' u' tok).
Qed.

(** ** The further properties at work on the sample worlds *)

Ltac each_other_record :=
  refine (stored_forall _ _ _); vm_compute;
  repeat (constructor;
          [cbv beta;
           first [ let N := fresh in intros N; exfalso; apply N; reflexivity
                 | let E := fresh in intros _ E; discriminate E ]|]);
  constructor.

Lemma isAuthenticated_sound_witness :
  exists u, stored world2 u /\
    identity (merge_identity (with_session "2aid") alice2) = Some u /\
    cookies (merge_identity (with_session "2aid") alice2)
      = cookies (with_session "2aid") /\
    body (merge_identity (with_session "2aid") alice2)
      = body (with_session "2aid") /\
    params (merge_identity (with_session "2aid") alice2)
      = params (with_session "2aid") /\
    forall tok,
      cookies (with_session "2aid") !! "EXPRESS-API-AUTH" = Some (JsString tok) ->
      tok <> "" /\ User.sessionToken u = Some tok.
Proof.
  apply (isAuthenticated_sound (H := sample_filter) (with_session "2aid")
           (merge_identity (with_session "2aid") alice2) world2).
  vm_compute. reflexivity.
Defined.

Lemma isOwnAccount_sound_witness :
  exists u, identity (on_own_account []) = Some u /\ User.id u <> "" /\
    params (on_own_account []) !! "id" = Some (User.id u).
Proof.
  apply (isOwnAccount_sound (on_own_account []) (on_own_account []) world2).
  vm_compute. reflexivity.
Defined.

Lemma failure_leaves_table_witness :
  users (app (H := sample_bcrypt) (H0 := sample_ids) (H1 := sample_filter) DELETE ["users"; "bid"]
           (on_other_account []) world2).2 = users world2.
Proof.
  apply (failure_leaves_table (H := sample_bcrypt) (H0 := sample_ids)
           (H1 := sample_filter)).
  vm_compute. discriminate.
Defined.

Lemma cookie_only_on_login_witness :
  exists i r,
    users (app (H := sample_bcrypt) (H0 := sample_ids) (H1 := sample_filter) POST ["auth"; "login"]
             login_alice world2).2 !! i = Some r /\
    User.r_sessionToken r = Some "4aid".
Proof.
  apply (cookie_only_on_login (H := sample_bcrypt) (H0 := sample_ids)
           (H1 := sample_filter)
           POST ["auth"; "login"] login_alice world2
           (mkCookie "EXPRESS-API-AUTH" "4aid" "localhost" "/")).
  vm_compute. reflexivity.
Defined.

Lemma routed_statuses_witness :
  handler_status
    (status (app (H := sample_bcrypt) (H0 := sample_ids) (H1 := sample_filter) GET ["users"]
               (with_session "") world2).1).
Proof.
  apply (routed_statuses (H := sample_bcrypt) (H0 := sample_ids)
           (H1 := sample_filter)).
  vm_compute. eexists. reflexivity.
Defined.

Lemma app_keeps_emails_unique_witness :
  emails_unique
    (users (app (H := sample_bcrypt) (H0 := sample_ids) (H1 := sample_filter) POST ["auth"; "register"]
              register_bob world1).2).
Proof.
  apply (app_keeps_emails_unique (H := sample_bcrypt) (H0 := sample_ids)
           (H1 := sample_filter)).
  intros i j r s Hi Hj _. simpl in Hi, Hj.
  apply lookup_singleton_Some in Hi as [<- _].
  apply lookup_singleton_Some in Hj as [<- _]. reflexivity.
Defined.


Lemma list_requires_session_witness :
  exists l,
    json (app (H := sample_bcrypt) (H0 := sample_ids) (H1 := sample_filter)
            GET ["users"] (with_session "2aid") world2).1 = JUsers l /\
    forall u, u ∈ l <-> stored world2 u.
Proof.
  apply (list_requires_session (H := sample_bcrypt) (H0 := sample_ids)
           (H1 := sample_filter) (with_session "2aid") world2).
  vm_compute. reflexivity.
Defined.

Lemma mutation_requires_owner_witness :
  exists r, users world2 !! "aid" = Some r /\
    forall tok,
      cookies (with_session "2aid") !! "EXPRESS-API-AUTH" = Some (JsString tok) ->
      tok <> "" /\ User.r_sessionToken r = Some tok.
Proof.
  apply (mutation_requires_owner (H := sample_bcrypt) (H0 := sample_ids)
           (H1 := sample_filter)
           DELETE "aid" (with_session "2aid") world2 (or_intror eq_refl)).
  left. vm_compute. reflexivity.
Defined.

Lemma other_account_forbidden_witness :
  app (H := sample_bcrypt) (H0 := sample_ids) (H1 := sample_filter) DELETE ["users"; "bid"]
    (on_other_account []) world2
  = (sendStatus 403, record_op (OpFindFirstToken (Some "2aid")) world2).
Proof.
  apply (other_account_forbidden (H := sample_bcrypt) (H0 := sample_ids)
           (H1 := sample_filter)
           DELETE "bid" (on_other_account []) world2 alice2 "2aid");
    [by right|discriminate|reflexivity|discriminate|reflexivity|reflexivity
    |reflexivity|each_record|discriminate].
Defined.



Lemma register_keeps_records_witness :
  stored (register (H := sample_bcrypt) (H0 := sample_ids) register_bob world1).2
    alice.
Proof.
  apply (register_keeps_records (H := sample_bcrypt) (H0 := sample_ids)).
  reflexivity.
Defined.

Lemma register_then_login_witness :
  status (login (H := sample_bcrypt) login_alice
            (register (H := sample_bcrypt) (H0 := sample_ids) register_alice
               empty_world).2).1 = 200.
Proof.
  apply (register_then_login (H := sample_bcrypt) (H0 := sample_ids)
           register_alice login_alice empty_world "a@x.com" "p" "alice");
    [reflexivity|reflexivity|reflexivity|discriminate|discriminate|discriminate
    |reflexivity|reflexivity|reflexivity|reflexivity|reflexivity|reflexivity
    |each_record|reflexivity|reflexivity].
Defined.

Lemma relogin_revokes_old_cookie_witness :
  (isAuthenticated (H := sample_filter) (with_session "2aid")
     (login (H := sample_bcrypt) login_alice world2).2).1
  <> Next (with_session "2aid").
Proof.
  apply (relogin_revokes_old_cookie (H := sample_bcrypt) (H0 := sample_filter) login_alice
           (with_session "2aid") (with_session "2aid") world2 alice2
           "a@x.com" "p" "2aid");
    [reflexivity|reflexivity|discriminate|discriminate|reflexivity|reflexivity
    |reflexivity|reflexivity|each_record|reflexivity|vm_compute; discriminate
    |each_other_record|reflexivity].
Defined.

Lemma delete_revokes_session_witness :
  (isAuthenticated (H := sample_filter) (with_session "2aid")
     (deleteUser (on_own_account []) world2).2).1
  <> Next (with_session "2aid").
Proof.
  apply (delete_revokes_session (H := sample_filter) (on_own_account []) (with_session "2aid")
           (with_session "2aid") world2 "aid" "2aid");
    [reflexivity|reflexivity|each_other_record|reflexivity].
Defined.

Lemma rename_keeps_session_witness :
  exists u',
    (isAuthenticated (H := sample_filter) (with_session "2aid")
       (updateUser (on_own_account [("username", "al")]) world2).2).1
      = Next (merge_identity (with_session "2aid") u') /\
    identity (merge_identity (with_session "2aid") u') = Some u' /\
    User.id u' = "aid" /\ User.email u' = "a@x.com" /\
    User.sessionToken u' = Some "2aid".
Proof.
  apply (rename_keeps_session (H := sample_filter)
           (on_own_account [("username", "al")])
           (with_session "2aid") world2 alice2 "2aid");
    [reflexivity|reflexivity|discriminate|each_record|reflexivity|reflexivity].
Defined.
